(** * Fortune Tickets backend: the webhook pipeline of [server.js]

    A shallow embedding of the [POST /webhook] handler, of the helper
    [updateERC404FungibleBalance], of [broadcastUpdate] and of the
    Mongoose collections they work on, followed by the properties of
    the pipeline: idempotency at transaction granularity, balance
    arithmetic, NFT ownership, the decode chain, the minting life
    cycle, duplicate suppression, the early exits and the response
    status.

    Conventions.
    - A JSON field is [option string]: [None] is a missing, [null] or
      [undefined] field.  JavaScript truthiness of such a field is
      [truthy].
    - A Mongoose collection is the list of its documents in insertion
      order.  A [unique: true] path is an index of the collection:
      inserting a second document with the same key throws, as MongoDB
      does (E11000).  A [required: true] string path rejects the empty
      string on insertion.
    - The handler runs in a state-and-exception monad over [World]:
      the six collections, the sockets of the push channel, and a
      journal that lists every write and every frame sent, in program
      order.  An exception keeps the writes made before it: nothing is
      rolled back.
    - [ethers.utils.Interface.parseLog] is a library function: the
      handler is parameterised by it. *)

From Stdlib Require Import ZArith NArith List String Ascii Bool Lia.
From Stdlib Require Import DecimalString DecimalZ DecimalN DecimalPos.
From Stdlib Require Import Sorted Permutation.
Import ListNotations.

Local Open Scope string_scope.
Local Open Scope Z_scope.
Local Open Scope list_scope.

(** ** JavaScript values used by the handler *)

Module Js.

(** Truthiness of a string: only the empty string is falsy. *)
Definition nonEmpty (s : string) : bool :=
  match s with
  | EmptyString => false
  | String _ _ => true
  end.

(** Truthiness of a JSON field holding a string. *)
Definition truthy (v : option string) : bool :=
  match v with
  | Some s => nonEmpty s
  | None => false
  end.

Definition lowerChar (c : ascii) : ascii :=
  let n := nat_of_ascii c in
  if (Nat.leb 65 n && Nat.leb n 90)%bool then ascii_of_nat (n + 32) else c.

(** [String.prototype.toLowerCase] on the ASCII range. *)
Fixpoint toLowerCase (s : string) : string :=
  match s with
  | EmptyString => EmptyString
  | String c r => String (lowerChar c) (toLowerCase r)
  end.

(** White space and line terminators of [StrWhiteSpaceChar] in the
    ASCII range: TAB, LF, VT, FF, CR, SP. *)
Definition isWhiteSpace (c : ascii) : bool :=
  let n := nat_of_ascii c in
  (Nat.eqb n 9 || Nat.eqb n 10 || Nat.eqb n 11 || Nat.eqb n 12
   || Nat.eqb n 13 || Nat.eqb n 32)%bool.

Fixpoint trimStart (s : string) : string :=
  match s with
  | EmptyString => EmptyString
  | String c r => if isWhiteSpace c then trimStart r else s
  end.

Fixpoint trimEnd (s : string) : string :=
  match s with
  | EmptyString => EmptyString
  | String c r =>
      match trimEnd r with
      | EmptyString => if isWhiteSpace c then EmptyString else String c EmptyString
      | r' => String c r'
      end
  end.

Definition trim (s : string) : string := trimEnd (trimStart s).

(** Value of a digit in a radix up to 16, [None] when the character is
    not a digit of that radix. *)
Definition digitValue (radix : Z) (c : ascii) : option Z :=
  let n := Z.of_nat (nat_of_ascii c) in
  let v :=
    if (48 <=? n) && (n <=? 57) then Some (n - 48)
    else if (97 <=? n) && (n <=? 102) then Some (n - 87)
    else if (65 <=? n) && (n <=? 70) then Some (n - 55)
    else None in
  match v with
  | Some d => if d <? radix then Some d else None
  | None => None
  end.

Fixpoint digitsAcc (radix : Z) (s : string) (acc : Z) : option Z :=
  match s with
  | EmptyString => Some acc
  | String c r =>
      match digitValue radix c with
      | Some d => digitsAcc radix r (acc * radix + d)
      | None => None
      end
  end.

(** [BinaryDigits], [OctalDigits], [HexDigits]: at least one digit. *)
Definition radixDigits (radix : Z) (s : string) : option Z :=
  match s with
  | EmptyString => None
  | _ => digitsAcc radix s 0
  end.

(** [DecimalDigits]: at least one digit, leading zeros allowed. *)
Definition decimalDigits (s : string) : option Z :=
  option_map Z.of_uint (NilZero.uint_of_string s).

(** A [NonDecimalIntegerLiteral] prefix: the radix and the digits. *)
Definition radixPrefix (t : string) : option (Z * string) :=
  match t with
  | String c0 (String c1 r) =>
      if Ascii.eqb c0 "0" then
        if (Ascii.eqb c1 "x" || Ascii.eqb c1 "X")%bool then Some (16, r)
        else if (Ascii.eqb c1 "o" || Ascii.eqb c1 "O")%bool then Some (8, r)
        else if (Ascii.eqb c1 "b" || Ascii.eqb c1 "B")%bool then Some (2, r)
        else None
      else None
  | _ => None
  end.

(** [StringToBigInt]: the string is trimmed; the empty string is [0n];
    a radix prefix takes no sign; otherwise an optional sign and
    decimal digits.  [None] is the [SyntaxError] that [BigInt(s)]
    throws. *)
Definition BigInt (s : string) : option Z :=
  match trim s with
  | EmptyString => Some 0
  | String c r as t =>
      match radixPrefix t with
      | Some (radix, ds) => radixDigits radix ds
      | None =>
          if Ascii.eqb c "-" then option_map Z.opp (decimalDigits r)
          else if Ascii.eqb c "+" then decimalDigits r
          else decimalDigits t
      end
  end.

(** [DecimalDigit], and strings of decimal digits. *)
Definition isDigit (c : ascii) : bool :=
  let n := nat_of_ascii c in (Nat.leb 48 n && Nat.leb n 57)%bool.

Fixpoint allDigits (s : string) : bool :=
  match s with
  | EmptyString => true
  | String c r => (isDigit c && allDigits r)%bool
  end.

(** [BigInt.prototype.toString()], and [BigNumber.prototype.toString()]
    of ethers: the canonical decimal numeral. *)
Definition toString (z : Z) : string := NilZero.string_of_int (Z.to_int z).

(** [BigNumber.prototype.toNumber()] of ethers 5 (through bn.js): the
    value when it fits 53 bits, an exception otherwise. *)
Definition toNumber (n : N) : option Z :=
  if (n <? 2 ^ 53)%N then Some (Z.of_N n) else None.

End Js.

(** ** The webhook payload *)

(** An entry of [nftTransfers]. *)
Record NftTransfer := mkNftTransfer {
  nt_contract : option string;
  nt_tokenId : option string;
  nt_from : option string;
  nt_to : option string;
  nt_transactionHash : option string }.

(** An entry of [erc20Transfers]. *)
Record Erc20Transfer := mkErc20Transfer {
  et_contract : option string;
  et_from : option string;
  et_to : option string;
  et_value : option string;
  et_transactionHash : option string }.

(** An entry of [logs]. *)
Record Log := mkLog {
  lg_address : option string;
  lg_data : option string;
  lg_topic0 : option string;
  lg_topic1 : option string;
  lg_topic2 : option string;
  lg_topic3 : option string }.

(** [req.body]; [confirmed] is the truthiness of the field, and an
    absent array is [None].  The field [block] is never read. *)
Record Body := mkBody {
  confirmed : bool;
  nftTransfers : option (list NftTransfer);
  erc20Transfers : option (list Erc20Transfer);
  logs : option (list Log) }.

Record Response := mkResponse {
  status : nat;
  message : string }.

(** ** Decoded events *)

Inductive EventName :=
| TicketMinted | TicketOpeningInitiated | TicketResolved
| RewardPaid | PoolDeposited | PoolWithdrawn.

(** An element of the [levels] tuple array of [TicketMinted]. *)
Record Level := mkLevel {
  lv_rollNumber : N;
  lv_winPercentage : N;
  lv_winAmount : N }.

(** [decodedLog.args]: the named values of one of the six events of
    [eventABIs]; a [uint256] is an [N], an address a string. *)
Inductive Args :=
| TicketMintedArgs (to : string) (tokenId : N) (isETHVersion : bool)
                   (levels : list Level)
| TicketOpeningInitiatedArgs (tokenId : N) (opener : string)
| TicketResolvedArgs (tokenId rollResult winAmount : N)
| RewardPaidArgs (winner : string) (tokenId amount : N)
| PoolDepositedArgs (depositor : string) (amount : N)
| PoolWithdrawnArgs (withdrawer : string) (amount : N).

(** Property reads on [args]; [None] is [undefined]. *)
Definition args_tokenId (a : Args) : option N :=
  match a with
  | TicketMintedArgs _ t _ _ | TicketOpeningInitiatedArgs t _
  | TicketResolvedArgs t _ _ | RewardPaidArgs _ t _ => Some t
  | _ => None
  end.

Definition args_levels (a : Args) : option (list Level) :=
  match a with TicketMintedArgs _ _ _ l => Some l | _ => None end.

Definition args_opener (a : Args) : option string :=
  match a with TicketOpeningInitiatedArgs _ o => Some o | _ => None end.

Definition args_winAmount (a : Args) : option N :=
  match a with TicketResolvedArgs _ _ w => Some w | _ => None end.

Definition args_rollResult (a : Args) : option N :=
  match a with TicketResolvedArgs _ r _ => Some r | _ => None end.

Definition args_amount (a : Args) : option N :=
  match a with
  | RewardPaidArgs _ _ x | PoolDepositedArgs _ x | PoolWithdrawnArgs _ x => Some x
  | _ => None
  end.

(** What a call of [parseLog] does: it throws, it returns [null], or
    it returns a description carrying [args]. *)
Inductive ParseResult :=
| Threw
| ReturnedNull
| Parsed (args : Args).

(** The argument of [parseLog]: [{ data, topics }]. *)
Record LogInput := mkLogInput {
  li_data : option string;
  li_topics : list string }.

(** ** Documents and collections *)

Record FungibleDoc := mkFungible {
  fb_address : string;
  fb_balance : string }.

Record HoldingDoc := mkHolding {
  hd_tokenId : string;
  hd_owner : string }.

Record TransactionDoc := mkTransaction {
  tx_transactionHash : string;
  tx_processedAt : nat }.

Inductive TokenType := ERC721 | ERC404.

Record OpeningDoc := mkOpening {
  op_tokenId : string;
  op_timestamp : nat;
  op_transactionHash : string;
  op_tokenType : TokenType;
  op_opener : string }.

Record LevelDoc := mkLevelDoc {
  ld_winAmount : string;
  ld_rollNumber : Z }.

Record MintingDetailsDoc := mkMintingDetails {
  md_tokenId : string;
  md_levels : list LevelDoc;
  md_rollResult : option Z;
  md_payout : option string;
  md_timestamp : nat;
  md_transactionHash : string }.

(** Operations on a collection whose documents carry a string key. *)
Section Collection.
Context {D : Type} (key : D -> string).

Definition hasKey (k : string) (d : D) : bool := String.eqb (key d) k.

(** [Model.findOne({ key })]: the first match. *)
Definition findOne (k : string) (docs : list D) : option D :=
  find (hasKey k) docs.

(** [Model.findOneAndDelete({ key })]: the first match is removed. *)
Fixpoint deleteOne (k : string) (docs : list D) : list D :=
  match docs with
  | [] => []
  | d :: r => if hasKey k d then r else d :: deleteOne k r
  end.

(** Insertion under the unique index on [key]: [None] is the
    duplicate-key error. *)
Definition insertUnique (d : D) (docs : list D) : option (list D) :=
  if existsb (hasKey (key d)) docs then None else Some (docs ++ [d]).

(** [doc.save()] on a document that was read with [findOne]. *)
Fixpoint replaceOne (d : D) (docs : list D) : list D :=
  match docs with
  | [] => []
  | x :: r => if hasKey (key d) x then d :: r else x :: replaceOne d r
  end.

Definition countKey (k : string) (docs : list D) : nat :=
  List.length (filter (hasKey k) docs).

(** The unique index: no two documents share a key. *)
Definition uniqueKeys (docs : list D) : Prop := NoDup (map key docs).
End Collection.

(** ** The world of the handler *)

Inductive Model :=
| ERC404FungibleM | ERC404NFTM | ERC721HoldingM
| ProcessedTransactionM | OpeningM | MintingDetailsM.

Inductive ReadyState := CONNECTING | OPEN | CLOSING | CLOSED.

(** The frame [JSON.stringify({ type, data: { tokenId } })]. *)
Record Frame := mkFrame {
  fr_type : string;
  fr_tokenId : string }.

(** An entry of the journal: a completed model call that writes, or a
    frame handed to the socket of a client. *)
Inductive Effect :=
| Created (m : Model) (key : string)
| Saved (m : Model) (key : string)
| FoundAndDeleted (m : Model) (key : string)
| Sent (client : nat) (f : Frame).

Record World := mkWorld {
  ERC404Fungible : list FungibleDoc;
  ERC404NFT : list HoldingDoc;
  ERC721Holding : list HoldingDoc;
  ProcessedTransaction : list TransactionDoc;
  Opening : list OpeningDoc;
  MintingDetails : list MintingDetailsDoc;
  wssClients : list ReadyState;
  journal : list Effect }.

Definition setERC404Fungible (x : list FungibleDoc) (w : World) : World :=
  mkWorld x (ERC404NFT w) (ERC721Holding w) (ProcessedTransaction w)
          (Opening w) (MintingDetails w) (wssClients w) (journal w).
Definition setERC404NFT (x : list HoldingDoc) (w : World) : World :=
  mkWorld (ERC404Fungible w) x (ERC721Holding w) (ProcessedTransaction w)
          (Opening w) (MintingDetails w) (wssClients w) (journal w).
Definition setERC721Holding (x : list HoldingDoc) (w : World) : World :=
  mkWorld (ERC404Fungible w) (ERC404NFT w) x (ProcessedTransaction w)
          (Opening w) (MintingDetails w) (wssClients w) (journal w).
Definition setProcessedTransaction (x : list TransactionDoc) (w : World) : World :=
  mkWorld (ERC404Fungible w) (ERC404NFT w) (ERC721Holding w) x
          (Opening w) (MintingDetails w) (wssClients w) (journal w).
Definition setOpening (x : list OpeningDoc) (w : World) : World :=
  mkWorld (ERC404Fungible w) (ERC404NFT w) (ERC721Holding w)
          (ProcessedTransaction w) x (MintingDetails w) (wssClients w) (journal w).
Definition setMintingDetails (x : list MintingDetailsDoc) (w : World) : World :=
  mkWorld (ERC404Fungible w) (ERC404NFT w) (ERC721Holding w)
          (ProcessedTransaction w) (Opening w) x (wssClients w) (journal w).
Definition setJournal (x : list Effect) (w : World) : World :=
  mkWorld (ERC404Fungible w) (ERC404NFT w) (ERC721Holding w)
          (ProcessedTransaction w) (Opening w) (MintingDetails w) (wssClients w) x.

(** ** The monad: state over [World], with exceptions *)

Inductive JsError :=
| TypeError | SyntaxError | ValidationError | DuplicateKeyError | NumericFault.

Inductive Outcome (A : Type) :=
| Returned (a : A)
| Thrown (e : JsError).
Arguments Returned {A} a.
Arguments Thrown {A} e.

Definition M (A : Type) : Type := World -> Outcome A * World.

Definition ret {A} (a : A) : M A := fun w => (Returned a, w).

Definition throw {A} (e : JsError) : M A := fun w => (Thrown e, w).

Definition bind {A B} (m : M A) (k : A -> M B) : M B :=
  fun w =>
    match m w with
    | (Returned a, w') => k a w'
    | (Thrown e, w') => (Thrown e, w')
    end.

Declare Scope js_scope.
Delimit Scope js_scope with js.
Notation "x <- m ;; k" := (bind m (fun x => k))
  (at level 61, m at next level, right associativity) : js_scope.
Notation "m ;; k" := (bind m (fun _ => k))
  (at level 61, right associativity) : js_scope.
Local Open Scope js_scope.

(** [try { m } catch (error) { ... continue }]: the exception is
    swallowed, the writes made before it stay. *)
Definition tryCatch (m : M unit) : M unit :=
  fun w =>
    match m w with
    | (Returned a, w') => (Returned a, w')
    | (Thrown _, w') => (Returned tt, w')
    end.

(** A read that throws [e] on [None]. *)
Definition orThrow {A} (e : JsError) (o : option A) : M A :=
  match o with
  | Some a => ret a
  | None => throw e
  end.

Definition get {A} (f : World -> A) : M A := fun w => (Returned (f w), w).

Definition modify (f : World -> World) : M unit := fun w => (Returned tt, f w).

Definition record (e : Effect) : M unit :=
  modify (fun w => setJournal (journal w ++ [e]) w).

(** [for (const x of xs) { body }], the body threading the locals [S]
    of the enclosing block. *)
Fixpoint forOf {A S} (body : A -> S -> M S) (xs : list A) (s : S) : M S :=
  match xs with
  | [] => ret s
  | x :: r => s' <- body x s ;; forOf body r s'
  end.

(** [when c m]: [if (c) { m }]. *)
Definition when (c : bool) (m : M unit) : M unit := if c then m else ret tt.

(** ** Model calls *)

(** The two holdings collections share a schema: [tokenId] unique and
    required, [owner] required. *)
Inductive HoldingModel := ERC721HoldingModel | ERC404NFTModel.

Definition holdings (m : HoldingModel) (w : World) : list HoldingDoc :=
  match m with
  | ERC721HoldingModel => ERC721Holding w
  | ERC404NFTModel => ERC404NFT w
  end.

Definition setHoldings (m : HoldingModel) (x : list HoldingDoc) (w : World) : World :=
  match m with
  | ERC721HoldingModel => setERC721Holding x w
  | ERC404NFTModel => setERC404NFT x w
  end.

Definition modelOf (m : HoldingModel) : Model :=
  match m with
  | ERC721HoldingModel => ERC721HoldingM
  | ERC404NFTModel => ERC404NFTM
  end.

(** [await Model.findOneAndDelete({ tokenId })]. *)
Definition Holding_findOneAndDelete (m : HoldingModel) (tokenId : string) : M unit :=
  modify (fun w => setHoldings m (deleteOne hd_tokenId tokenId (holdings m w)) w) ;;
  record (FoundAndDeleted (modelOf m) tokenId).

(** [await Model.create({ tokenId, owner })]. *)
Definition Holding_create (m : HoldingModel) (doc : HoldingDoc) : M unit :=
  if negb (Js.nonEmpty (hd_tokenId doc) && Js.nonEmpty (hd_owner doc)) then
    throw ValidationError
  else
    docs <- get (holdings m) ;;
    match insertUnique hd_tokenId doc docs with
    | None => throw DuplicateKeyError
    | Some docs' =>
        modify (setHoldings m docs') ;;
        record (Created (modelOf m) (hd_tokenId doc))
    end.

(** [await balance.save()]: an insertion when the document was made
    with [new ERC404Fungible], an update when it was found. *)
Definition ERC404Fungible_save (isNew : bool) (doc : FungibleDoc) : M unit :=
  (if isNew then
     if negb (Js.nonEmpty (fb_address doc)) then throw ValidationError
     else
       docs <- get ERC404Fungible ;;
       match insertUnique fb_address doc docs with
       | None => throw DuplicateKeyError
       | Some docs' => modify (setERC404Fungible docs')
       end
   else
     modify (fun w => setERC404Fungible (replaceOne fb_address doc (ERC404Fungible w)) w)) ;;
  record (Saved ERC404FungibleM (fb_address doc)).

(** [await ProcessedTransaction.create({ transactionHash })];
    [processedAt] defaults to the current time. *)
Definition ProcessedTransaction_create (now : nat) (transactionHash : string) : M unit :=
  if negb (Js.nonEmpty transactionHash) then throw ValidationError
  else
    docs <- get ProcessedTransaction ;;
    match insertUnique tx_transactionHash (mkTransaction transactionHash now) docs with
    | None => throw DuplicateKeyError
    | Some docs' =>
        modify (setProcessedTransaction docs') ;;
        record (Created ProcessedTransactionM transactionHash)
    end.

(** [await Opening.create({ tokenId, opener, transactionHash,
    tokenType })]: no unique path, three required strings. *)
Definition Opening_create (doc : OpeningDoc) : M unit :=
  if negb (Js.nonEmpty (op_tokenId doc) && Js.nonEmpty (op_transactionHash doc)
           && Js.nonEmpty (op_opener doc)) then
    throw ValidationError
  else
    modify (fun w => setOpening (Opening w ++ [doc]) w) ;;
    record (Created OpeningM (op_tokenId doc)).

(** [await mintingDetails.save()]. *)
Definition MintingDetails_save (isNew : bool) (doc : MintingDetailsDoc) : M unit :=
  (if isNew then
     if negb (Js.nonEmpty (md_tokenId doc) && Js.nonEmpty (md_transactionHash doc)) then
       throw ValidationError
     else
       docs <- get MintingDetails ;;
       match insertUnique md_tokenId doc docs with
       | None => throw DuplicateKeyError
       | Some docs' => modify (setMintingDetails docs')
       end
   else
     modify (fun w => setMintingDetails (replaceOne md_tokenId doc (MintingDetails w)) w)) ;;
  record (Saved MintingDetailsM (md_tokenId doc)).

(** ** [updateERC404FungibleBalance] *)

Definition updateERC404FungibleBalance
    (address amount : string) (isAddition : bool) : M unit :=
  found <- get (fun w => findOne fb_address address (ERC404Fungible w)) ;;
  let balance :=
    match found with
    | Some d => d
    | None => mkFungible address "0"
    end in
  let isNew := match found with Some _ => false | None => true end in
  currentBalance <- orThrow SyntaxError (Js.BigInt (fb_balance balance)) ;;
  amountBigInt <- orThrow SyntaxError (Js.BigInt amount) ;;
  let balance' :=
    mkFungible (fb_address balance)
      (if isAddition
       then Js.toString (currentBalance + amountBigInt)
       else Js.toString (currentBalance - amountBigInt)) in
  ERC404Fungible_save isNew balance'.

(** The balance the [/holdings/:address] endpoint reports:
    [findOne({ address }) || { balance: '0' }]. *)
Definition fungibleBalance (address : string) (w : World) : string :=
  match findOne fb_address address (ERC404Fungible w) with
  | Some d => fb_balance d
  | None => "0"
  end.

(** ** [broadcastUpdate] *)

Fixpoint sendToOpen (i : nat) (clients : list ReadyState) (f : Frame) : list Effect :=
  match clients with
  | [] => []
  | OPEN :: r => Sent i f :: sendToOpen (S i) r f
  | _ :: r => sendToOpen (S i) r f
  end.

Definition broadcastUpdate (type tokenId : string) : M unit :=
  modify (fun w =>
    setJournal (journal w ++ sendToOpen 0 (wssClients w) (mkFrame type tokenId)) w).

(** ** The webhook handler *)

Definition contractAddresses : list string :=
  [ "0xE64Ea2215CD88a5d3cfe764bCEB2c1e3C60ECfC4";
    "0x99A8374c5cf5E45151102F367ada3B47F636951c" ].

Definition zeroAddress : string := "0x0000000000000000000000000000000000000000".

(** [a || b] on JSON fields. *)
Definition orElse (a b : option string) : option string :=
  if Js.truthy a then a else b.

(** [nftTransfers?.[0]?.transactionHash ||
     erc20Transfers?.[0]?.transactionHash]. *)
Definition firstTransactionHash (body : Body) : option string :=
  orElse
    match nftTransfers body with
    | Some (t :: _) => nt_transactionHash t
    | _ => None
    end
    match erc20Transfers body with
    | Some (t :: _) => et_transactionHash t
    | _ => None
    end.

(** [[topic0, topic1, topic2, topic3].filter(Boolean)]. *)
Definition topicsOf (log : Log) : list string :=
  flat_map
    (fun t => match t with
              | Some s => if Js.nonEmpty s then [s] else []
              | None => []
              end)
    [lg_topic0 log; lg_topic1 log; lg_topic2 log; lg_topic3 log].

(** The fixed priority order of the decoder, as the design states it. *)
Definition priorityOrder : list EventName :=
  [TicketMinted; TicketOpeningInitiated; TicketResolved;
   RewardPaid; PoolDeposited; PoolWithdrawn].

Definition eventName_eqb (a b : EventName) : bool :=
  match a, b with
  | TicketMinted, TicketMinted | TicketOpeningInitiated, TicketOpeningInitiated
  | TicketResolved, TicketResolved | RewardPaid, RewardPaid
  | PoolDeposited, PoolDeposited | PoolWithdrawn, PoolWithdrawn => true
  | _, _ => false
  end.

(** [processedTokenIds.has(tokenId)]. *)
Definition member (x : string) (s : list string) : bool :=
  existsb (String.eqb x) s.

Section Handler.

(** [interfaces[name].parseLog({ data, topics })]. *)
Variable parseLog : EventName -> LogInput -> ParseResult.

(** The body of the [for] loop over [nftTransfers]; the local
    [processedTokenIds] is the set of the enclosing block, in
    insertion order. *)
Definition nftTransferBody (erc721Address erc404Address : string)
    (transfer : NftTransfer) (processedTokenIds : list string)
    : M (list string) :=
  match nt_contract transfer, nt_tokenId transfer,
        nt_from transfer, nt_to transfer with
  | Some contract, Some tokenId, Some from, Some to =>
      if negb (Js.nonEmpty contract && Js.nonEmpty tokenId
               && Js.nonEmpty from && Js.nonEmpty to) then
        ret processedTokenIds
      else if member tokenId processedTokenIds then
        ret processedTokenIds
      else
        let isERC721 :=
          String.eqb (Js.toLowerCase contract) (Js.toLowerCase erc721Address) in
        let isERC404 :=
          String.eqb (Js.toLowerCase contract) (Js.toLowerCase erc404Address) in
        if isERC721 then
          when (negb (String.eqb from zeroAddress))
               (Holding_findOneAndDelete ERC721HoldingModel tokenId) ;;
          Holding_create ERC721HoldingModel (mkHolding tokenId (Js.toLowerCase to)) ;;
          ret processedTokenIds
        else if isERC404 then
          when (negb (String.eqb from zeroAddress))
               (Holding_findOneAndDelete ERC404NFTModel tokenId) ;;
          Holding_create ERC404NFTModel (mkHolding tokenId (Js.toLowerCase to)) ;;
          ret (processedTokenIds ++ [tokenId])
        else
          ret processedTokenIds
  | _, _, _, _ => ret processedTokenIds
  end.

(** The body of the [for] loop over [erc20Transfers]. *)
Definition erc20TransferBody (erc404Address : string)
    (transfer : Erc20Transfer) (_ : unit) : M unit :=
  match et_contract transfer, et_from transfer,
        et_to transfer, et_value transfer with
  | Some contract, Some from, Some to, Some value =>
      if negb (Js.nonEmpty contract && Js.nonEmpty from
               && Js.nonEmpty to && Js.nonEmpty value) then
        ret tt
      else if String.eqb (Js.toLowerCase contract) (Js.toLowerCase erc404Address) then
        when (negb (String.eqb from zeroAddress))
             (updateERC404FungibleBalance (Js.toLowerCase from) value false) ;;
        updateERC404FungibleBalance (Js.toLowerCase to) value true
      else
        ret tt
  | _, _, _, _ => ret tt
  end.

(** One [try { decodedLog = interfaces.E.parseLog(...); eventName =
    'E' } catch (e) { otherwise }] of the chain.  The result is the
    pair of locals [(decodedLog, eventName)], or [None] when the
    innermost [catch] runs [continue]. *)
Definition tryParse (e : EventName) (input : LogInput)
    (otherwise : option (option Args * option EventName))
    : option (option Args * option EventName) :=
  match parseLog e input with
  | Parsed args => Some (Some args, Some e)
  | ReturnedNull => Some (None, Some e)
  | Threw => otherwise
  end.

Definition decodeChain (input : LogInput)
    : option (option Args * option EventName) :=
  tryParse TicketMinted input
    (tryParse TicketOpeningInitiated input
      (tryParse TicketResolved input
        (tryParse RewardPaid input
          (tryParse PoolDeposited input
            (tryParse PoolWithdrawn input None))))).

(** The decoder as the design words it: the shapes of a list are
    tried in order and the first whose parse does not throw is
    accepted; when all throw the log is unrecognized. *)
Fixpoint firstAccepted (order : list EventName) (input : LogInput)
    : option (option Args * option EventName) :=
  match order with
  | [] => None
  | e :: r =>
      match parseLog e input with
      | Threw => firstAccepted r input
      | ReturnedNull => Some (None, Some e)
      | Parsed args => Some (Some args, Some e)
      end
  end.

(** The [TicketMinted] branch. *)
Definition onTicketMinted (now : nat) (transactionHash : string) (args : Args)
    : M unit :=
  tokenIdBN <- orThrow TypeError (args_tokenId args) ;;
  let tokenId := Js.toString (Z.of_N tokenIdBN) in
  levels <- orThrow TypeError (args_levels args) ;;
  found <- get (fun w => findOne md_tokenId tokenId (MintingDetails w)) ;;
  let mintingDetails :=
    match found with
    | Some d => d
    | None => mkMintingDetails tokenId [] None None now transactionHash
    end in
  let isNew := match found with Some _ => false | None => true end in
  pushed <- forOf
    (fun level acc =>
       rollNumber <- orThrow NumericFault (Js.toNumber (lv_rollNumber level)) ;;
       ret (acc ++ [mkLevelDoc (Js.toString (Z.of_N (lv_winAmount level))) rollNumber]))
    levels (md_levels mintingDetails) ;;
  MintingDetails_save isNew
    (mkMintingDetails (md_tokenId mintingDetails) pushed
       (md_rollResult mintingDetails) (md_payout mintingDetails)
       (md_timestamp mintingDetails) (md_transactionHash mintingDetails)) ;;
  broadcastUpdate "MINTING_DETAILS_UPDATED" tokenId.

(** The [TicketOpeningInitiated] branch. *)
Definition onTicketOpeningInitiated (now : nat) (transactionHash : string)
    (tokenType : TokenType) (args : Args) : M unit :=
  tokenIdBN <- orThrow TypeError (args_tokenId args) ;;
  let tokenId := Js.toString (Z.of_N tokenIdBN) in
  opener <- orThrow TypeError (args_opener args) ;;
  Opening_create
    (mkOpening tokenId now transactionHash tokenType (Js.toLowerCase opener)).

(** The [TicketResolved] / [RewardPaid] branch. *)
Definition onResolvedOrPaid (now : nat) (transactionHash : string)
    (eventName : EventName) (args : Args) : M unit :=
  tokenIdBN <- orThrow TypeError (args_tokenId args) ;;
  let tokenId := Js.toString (Z.of_N tokenIdBN) in
  outcome <-
    (if eventName_eqb eventName TicketResolved then
       w <- orThrow TypeError (args_winAmount args) ;;
       r <- orThrow TypeError (args_rollResult args) ;;
       n <- orThrow NumericFault (Js.toNumber r) ;;
       ret (Js.toString (Z.of_N w), n)
     else if eventName_eqb eventName RewardPaid then
       a <- orThrow TypeError (args_amount args) ;;
       ret (Js.toString (Z.of_N a), 0)
     else ret ("0", 0)) ;;
  let winAmount := fst outcome in
  let rollResult := snd outcome in
  found <- get (fun w => findOne md_tokenId tokenId (MintingDetails w)) ;;
  let mintingDetails :=
    match found with
    | Some d => d
    | None => mkMintingDetails tokenId [] None None now transactionHash
    end in
  let isNew := match found with Some _ => false | None => true end in
  MintingDetails_save isNew
    (mkMintingDetails (md_tokenId mintingDetails) (md_levels mintingDetails)
       (Some rollResult) (Some winAmount)
       (md_timestamp mintingDetails) (md_transactionHash mintingDetails)) ;;
  broadcastUpdate "MINTING_DETAILS_UPDATED" tokenId.

(** The [if (eventName === ...) ... else if ...] dispatch. *)
Definition onEvent (now : nat) (transactionHash : string) (tokenType : TokenType)
    (eventName : EventName) (args : Args) : M unit :=
  match eventName with
  | TicketMinted => onTicketMinted now transactionHash args
  | TicketOpeningInitiated =>
      onTicketOpeningInitiated now transactionHash tokenType args
  | TicketResolved | RewardPaid =>
      onResolvedOrPaid now transactionHash eventName args
  | PoolDeposited | PoolWithdrawn =>
      _ <- orThrow TypeError (args_amount args) ;; ret tt
  end.

(** The statements inside the [try] of the loop over [logs]. *)
Definition processLog (now : nat) (transactionHash : string)
    (erc721Address erc404Address : string) (log : Log) : M unit :=
  if negb (Js.truthy (lg_topic0 log)) then ret tt
  else
    address <- orThrow TypeError (lg_address log) ;;
    let isERC721 :=
      String.eqb (Js.toLowerCase address) (Js.toLowerCase erc721Address) in
    let isERC404 :=
      String.eqb (Js.toLowerCase address) (Js.toLowerCase erc404Address) in
    let tokenType :=
      if isERC721 then Some ERC721 else if isERC404 then Some ERC404 else None in
    match tokenType with
    | None => ret tt
    | Some tokenType =>
        match decodeChain (mkLogInput (lg_data log) (topicsOf log)) with
        | None => ret tt
        | Some (Some args, Some eventName) =>
            onEvent now transactionHash tokenType eventName args
        | Some _ => ret tt
        end
    end.

(** The body of the loop over [logs]: [try { ... } catch (error) {
    continue }]. *)
Definition logBody (now : nat) (transactionHash : string)
    (erc721Address erc404Address : string) (log : Log) (_ : unit) : M unit :=
  tryCatch (processLog now transactionHash erc721Address erc404Address log).

(** The statements inside the [try] of the handler; the result is
    the response that was sent. *)
Definition webhookBody (now : nat) (body : Body) : M Response :=
  if confirmed body then
    ret (mkResponse 200 "Skipped confirmed transaction")
  else
    match firstTransactionHash body with
    | Some (String _ _ as transactionHash) =>
        existingTransaction <-
          get (fun w => findOne tx_transactionHash transactionHash
                          (ProcessedTransaction w)) ;;
        match existingTransaction with
        | Some _ => ret (mkResponse 200 "Transaction already processed")
        | None =>
            match nth_error contractAddresses 0, nth_error contractAddresses 1 with
            | Some (String _ _ as erc721Address), Some (String _ _ as erc404Address) =>
                match nftTransfers body with
                | Some ((_ :: _) as transfers) =>
                    _ <- forOf (nftTransferBody erc721Address erc404Address)
                               transfers [] ;;
                    ret tt
                | _ => ret tt
                end ;;
                match erc20Transfers body with
                | Some ((_ :: _) as transfers) =>
                    forOf (erc20TransferBody erc404Address) transfers tt
                | _ => ret tt
                end ;;
                match logs body with
                | Some ((_ :: _) as ls) =>
                    forOf (logBody now transactionHash erc721Address erc404Address)
                          ls tt
                | _ => ret tt
                end ;;
                ProcessedTransaction_create now transactionHash ;;
                ret (mkResponse 200 "Holdings updated successfully")
            | _, _ => ret (mkResponse 200 "Contract addresses not configured")
            end
        end
    | _ => ret (mkResponse 200 "No transaction hash found")
    end.

(** [app.post('/webhook', ...)]: the [catch] of the handler answers
    too. *)
Definition webhook (now : nat) (body : Body) (w : World) : Response * World :=
  match webhookBody now body w with
  | (Returned response, w') => (response, w')
  | (Thrown _, w') =>
      (mkResponse 200 "Error occurred but returning 200 to prevent retries", w')
  end.

End Handler.

(** ** Definitions used to state the properties *)

(** The class a transfer entry falls in, by its contract address: the
    tests [isERC721] and [isERC404] of the handler, in their order. *)
Definition transferClass (erc721Address erc404Address contract : string)
    : option HoldingModel :=
  if String.eqb (Js.toLowerCase contract) (Js.toLowerCase erc721Address)
  then Some ERC721HoldingModel
  else if String.eqb (Js.toLowerCase contract) (Js.toLowerCase erc404Address)
  then Some ERC404NFTModel
  else None.

(** [applyTokenTransfer(tokenClass, tokenId, from, to)] as the design
    words it: the record of the token is deleted unless the transfer
    is a mint, and a record owned by [to] is inserted. *)
Definition applyTokenTransfer (m : HoldingModel) (tokenId from to : string) : M unit :=
  when (negb (String.eqb from zeroAddress)) (Holding_findOneAndDelete m tokenId) ;;
  Holding_create m (mkHolding tokenId (Js.toLowerCase to)).

(** An [nftTransfers] entry on the ERC404 contract carrying [tokenId]. *)
Definition onERC404With (erc721Address erc404Address tokenId : string)
    (t : NftTransfer) : Prop :=
  exists contract,
    nt_contract t = Some contract /\
    transferClass erc721Address erc404Address contract = Some ERC404NFTModel /\
    nt_tokenId t = Some tokenId.

(** An [nftTransfers] entry with its four fields present and truthy. *)
Definition wellFormed (t : NftTransfer) (contract tokenId from to : string) : Prop :=
  nt_contract t = Some contract /\ nt_tokenId t = Some tokenId /\
  nt_from t = Some from /\ nt_to t = Some to /\
  Js.nonEmpty contract = true /\ Js.nonEmpty tokenId = true /\
  Js.nonEmpty from = true /\ Js.nonEmpty to = true.

(** The level document pushed for a decoded level. *)
Definition levelDoc (l : Level) : LevelDoc :=
  mkLevelDoc (Js.toString (Z.of_N (lv_winAmount l))) (Z.of_N (lv_rollNumber l)).

(** The levels a token has on record, none when it has no record. *)
Definition levelsOf (tokenId : string) (w : World) : list LevelDoc :=
  match findOne md_tokenId tokenId (MintingDetails w) with
  | Some d => md_levels d
  | None => []
  end.

(** In a journal, the record of transaction [h] is created before any
    frame is sent. *)
Definition markedBeforeNotified (h : string) (j : list Effect) : Prop :=
  forall pre client f post,
    j = pre ++ Sent client f :: post ->
    In (Created ProcessedTransactionM h) pre.

Section HandlerShape.
Variable parseLog : EventName -> LogInput -> ParseResult.

(** The three loops of the handler, between the idempotency check and
    the creation of the [ProcessedTransaction] record. *)
Definition loops (now : nat) (h : string) (body : Body) : M unit :=
  match nth_error contractAddresses 0, nth_error contractAddresses 1 with
  | Some erc721Address, Some erc404Address =>
      match nftTransfers body with
      | Some ((_ :: _) as transfers) =>
          _ <- forOf (nftTransferBody erc721Address erc404Address) transfers [] ;;
          ret tt
      | _ => ret tt
      end ;;
      match erc20Transfers body with
      | Some ((_ :: _) as transfers) =>
          forOf (erc20TransferBody erc404Address) transfers tt
      | _ => ret tt
      end ;;
      match logs body with
      | Some ((_ :: _) as ls) =>
          forOf (logBody parseLog now h erc721Address erc404Address) ls tt
      | _ => ret tt
      end
  | _, _ => ret tt
  end.

(** The four ways through the handler. *)
Inductive Path (now : nat) (body : Body) (w : World) : Outcome Response * World -> Prop :=
| PathConfirmed :
    confirmed body = true ->
    Path now body w (Returned (mkResponse 200 "Skipped confirmed transaction"), w)
| PathNoHash :
    confirmed body = false ->
    Js.truthy (firstTransactionHash body) = false ->
    Path now body w (Returned (mkResponse 200 "No transaction hash found"), w)
| PathAlreadyProcessed h d :
    confirmed body = false ->
    firstTransactionHash body = Some h -> Js.nonEmpty h = true ->
    findOne tx_transactionHash h (ProcessedTransaction w) = Some d ->
    Path now body w (Returned (mkResponse 200 "Transaction already processed"), w)
| PathApplied h :
    confirmed body = false ->
    firstTransactionHash body = Some h -> Js.nonEmpty h = true ->
    findOne tx_transactionHash h (ProcessedTransaction w) = None ->
    Path now body w
      ((loops now h body ;;
        ProcessedTransaction_create now h ;;
        ret (mkResponse 200 "Holdings updated successfully")) w).

End HandlerShape.

(** Relations between the world a computation starts in and the world
    it ends in that compose along a sequence of statements. *)
Class FrameRel (R : World -> World -> Prop) : Prop := {
  frame_refl : forall w, R w w;
  frame_trans : forall a b c, R a b -> R b c -> R a c }.

(** A computation keeps [R] when every run, returning or throwing,
    relates the world it starts in to the world it ends in. *)
Definition Keeps (R : World -> World -> Prop) {A} (m : M A) : Prop :=
  forall w, R w (snd (m w)).

(** An effect other than the creation of a [ProcessedTransaction]
    record. *)
Definition notMark (e : Effect) : Prop :=
  match e with
  | Created ProcessedTransactionM _ => False
  | _ => True
  end.

(** The [ProcessedTransaction] collection and the sockets are as they
    were, and the journal grew by effects that create no
    [ProcessedTransaction] record. *)
Definition Quiet : World -> World -> Prop :=
  fun w w' =>
    ProcessedTransaction w' = ProcessedTransaction w /\
    wssClients w' = wssClients w /\
    exists d, journal w' = journal w ++ d /\ Forall notMark d.

(** Both holdings collections respect their unique index. *)
Definition Indexed (w : World) : Prop :=
  uniqueKeys hd_tokenId (ERC721Holding w) /\ uniqueKeys hd_tokenId (ERC404NFT w).

(** The unique index, when it held, still holds. *)
Definition KeepsIndex : World -> World -> Prop :=
  fun w w' => Indexed w -> Indexed w'.

(** A log the loop body decodes: it has an event signature and its
    address is one of the two contracts. *)
Definition tracked (a721 a404 : string) (log : Log) : Prop :=
  Js.truthy (lg_topic0 log) = true /\
  exists address,
    lg_address log = Some address /\
    (Js.toLowerCase address = Js.toLowerCase a721 \/
     Js.toLowerCase address = Js.toLowerCase a404).

(** A level whose roll number fits a JavaScript number. *)
Definition fits (l : Level) : Prop := (lv_rollNumber l < 2 ^ 53)%N.

(** ** A sample interface and sample payloads

    A stand-in for the ethers interfaces in the examples: [topic0] is
    the name of the event, the indexed arguments are the next topics
    and [data] is the one number the event carries. *)

Definition eventTopic (e : EventName) : string :=
  match e with
  | TicketMinted => "TicketMinted"
  | TicketOpeningInitiated => "TicketOpeningInitiated"
  | TicketResolved => "TicketResolved"
  | RewardPaid => "RewardPaid"
  | PoolDeposited => "PoolDeposited"
  | PoolWithdrawn => "PoolWithdrawn"
  end.

Definition uintOf (s : option string) : option N :=
  match s with
  | Some x =>
      match Js.BigInt x with
      | Some z => if 0 <=? z then Some (Z.to_N z) else None
      | None => None
      end
  | None => None
  end.

Definition sampleParseLog (e : EventName) (input : LogInput) : ParseResult :=
  match li_topics input with
  | t0 :: indexed =>
      if String.eqb t0 (eventTopic e) then
        match e, indexed, uintOf (li_data input) with
        | TicketMinted, [to; tokenId], Some n =>
            match uintOf (Some tokenId) with
            | Some t => Parsed (TicketMintedArgs to t true [mkLevel n 50 (1000 * n)])
            | None => Threw
            end
        | TicketOpeningInitiated, [tokenId; opener], _ =>
            match uintOf (Some tokenId) with
            | Some t => Parsed (TicketOpeningInitiatedArgs t opener)
            | None => Threw
            end
        | TicketResolved, [tokenId], Some n =>
            match uintOf (Some tokenId) with
            | Some t => Parsed (TicketResolvedArgs t n (1000 * n))
            | None => Threw
            end
        | RewardPaid, [winner; tokenId], Some n =>
            match uintOf (Some tokenId) with
            | Some t => Parsed (RewardPaidArgs winner t n)
            | None => Threw
            end
        | PoolDeposited, [who], Some n => Parsed (PoolDepositedArgs who n)
        | PoolWithdrawn, [who], Some n => Parsed (PoolWithdrawnArgs who n)
        | _, _, _ => Threw
        end
      else Threw
  | [] => Threw
  end.

Definition erc721Sample : string := "0xe64ea2215cd88a5d3cfe764bceb2c1e3c60ecfc4".
Definition erc404Sample : string := "0x99a8374c5cf5e45151102f367ada3b47f636951c".
Definition alice : string := "0x00000000000000000000000000000000000000A1".
Definition bob : string := "0x00000000000000000000000000000000000000B2".
Definition carol : string := "0x00000000000000000000000000000000000000C3".

Definition emptyWorld : World := mkWorld [] [] [] [] [] [] [OPEN] [].

Definition nftEntry (contract tokenId from to : string) : NftTransfer :=
  mkNftTransfer (Some contract) (Some tokenId) (Some from) (Some to) (Some "0xabc").

Definition erc20Entry (from to value : string) : Erc20Transfer :=
  mkErc20Transfer (Some erc404Sample) (Some from) (Some to) (Some value) (Some "0xabc").

Definition mintedLog : Log :=
  mkLog (Some erc721Sample) (Some "3") (Some "TicketMinted") (Some alice) (Some "7") None.

Definition resolvedLog : Log :=
  mkLog (Some erc721Sample) (Some "2") (Some "TicketResolved") (Some "7") None None.

Definition unknownLog : Log :=
  mkLog (Some erc721Sample) (Some "2") (Some "Approval") (Some "7") None None.

Definition inputOf (log : Log) : LogInput :=
  mkLogInput (lg_data log) (topicsOf log).

(** A confirmed delivery. *)
Definition confirmedBody : Body :=
  mkBody true (Some [nftEntry erc721Sample "7" alice bob])
    (Some [erc20Entry alice bob "5"]) (Some [mintedLog]).

(** Logs, and no transfer to take a transaction hash from. *)
Definition logsOnlyBody : Body :=
  mkBody false None (Some []) (Some [mintedLog; resolvedLog]).

(** A mint of 5 units to bob, then a transfer whose [value] is not an
    integer literal. *)
Definition failingBody : Body :=
  mkBody false None
    (Some [erc20Entry zeroAddress bob "5"; erc20Entry zeroAddress bob "1.5"]) None.

(** A mint of 5 units to bob and a [TicketMinted] log. *)
Definition mintBody : Body :=
  mkBody false None (Some [erc20Entry zeroAddress bob "5"]) (Some [mintedLog]).

(** Token 5 moves on the ERC404 contract, then twice on the ERC721
    contract. *)
Definition mixedBody : Body :=
  mkBody false
    (Some [nftEntry erc404Sample "5" alice bob;
           nftEntry erc721Sample "5" alice carol;
           nftEntry erc721Sample "5" carol bob])
    None None.

Definition bobAddress : string := Js.toLowerCase bob.

Definition ledger : World :=
  setERC404Fungible [mkFungible bobAddress "100000000000000000000000000000"] emptyWorld.

Definition gallery : World :=
  setERC721Holding [mkHolding "7" (Js.toLowerCase alice)] emptyWorld.

Definition mintedFrame : Frame := mkFrame "MINTING_DETAILS_UPDATED" "7".

(** ** The read endpoints

    The handlers of the [GET] routes.  Each answers 200 with the body
    modelled here; its [catch] (status 500) answers a failure of the
    database, which the lists that stand for the collections do not
    have. *)

(** [Model.find({ owner })] on a holdings collection. *)
Definition findByOwner (owner : string) (docs : list HoldingDoc) : list HoldingDoc :=
  filter (fun d => String.eqb (hd_owner d) owner) docs.

(** [distinct(field)] on the values of the field: each value once, in
    the order of first occurrence. *)
Fixpoint distinct (l : list string) : list string :=
  match l with
  | [] => []
  | x :: r => x :: filter (fun y => negb (String.eqb y x)) (distinct r)
  end.

(** [{ $in: values }]. *)
Definition inValues (x : string) (values : list string) : bool :=
  existsb (String.eqb x) values.

(** [{ $gt: b }] between strings: MongoDB compares them byte by byte. *)
Definition gtString (a b : string) : bool :=
  match String.compare a b with
  | Gt => true
  | _ => false
  end.

(** [.sort({ timestamp: -1 })]: descending timestamps, by insertion. *)
Fixpoint insertDesc {D} (timestamp : D -> nat) (d : D) (l : list D) : list D :=
  match l with
  | [] => [d]
  | x :: r =>
      if Nat.leb (timestamp x) (timestamp d) then d :: x :: r
      else x :: insertDesc timestamp d r
  end.

Fixpoint sortDesc {D} (timestamp : D -> nat) (l : list D) : list D :=
  match l with
  | [] => []
  | d :: r => insertDesc timestamp d (sortDesc timestamp r)
  end.

(** The body of [GET /holdings/:address]. *)
Record HoldingsBody := mkHoldingsBody {
  hb_fungible : string;
  hb_nfts : list string;
  hb_erc721 : list string }.

Definition getHoldings (address : string) (w : World) : HoldingsBody :=
  let addressLower := Js.toLowerCase address in
  mkHoldingsBody
    (fungibleBalance addressLower w)
    (map hd_tokenId (findByOwner addressLower (ERC404NFT w)))
    (map hd_tokenId (findByOwner addressLower (ERC721Holding w))).

(** The body of [GET /holders/:tokenType]. *)
Inductive HoldersBody :=
| HoldersDocs (docs : list FungibleDoc)
| HoldersOwners (owners : list string)
| HoldersError (error : string).

Definition getHolders (tokenType : string) (w : World) : nat * HoldersBody :=
  if String.eqb tokenType "erc404-fungible" then
    (200%nat, HoldersDocs (filter (fun d => gtString (fb_balance d) "0") (ERC404Fungible w)))
  else if String.eqb tokenType "erc404-nft" then
    (200%nat, HoldersOwners (distinct (map hd_owner (ERC404NFT w))))
  else if String.eqb tokenType "erc721" then
    (200%nat, HoldersOwners (distinct (map hd_owner (ERC721Holding w))))
  else
    (400%nat, HoldersError "Invalid token type").

(** The body of [GET /openings/:tokenId]. *)
Definition getOpenings (tokenId : string) (w : World) : list OpeningDoc :=
  sortDesc op_timestamp
    (filter (fun d => String.eqb (op_tokenId d) tokenId) (Opening w)).

(** The body of [GET /address/:address/openings]; the address is used
    as it is given. *)
Definition getAddressOpenings (address : string) (w : World) : list OpeningDoc :=
  let ids721 := distinct (map hd_tokenId (findByOwner address (ERC721Holding w))) in
  let ids404 := distinct (map hd_tokenId (findByOwner address (ERC404NFT w))) in
  sortDesc op_timestamp
    (filter (fun d => inValues (op_tokenId d) ids721 || inValues (op_tokenId d) ids404)
            (Opening w)).

(** The body of [GET /minting-details/:tokenId]: the document, or
    [null]. *)
Definition getMintingDetails (tokenId : string) (w : World) : option MintingDetailsDoc :=
  findOne md_tokenId tokenId (MintingDetails w).

(** An element of the body of the two listings of minting details. *)
Record FormattedDetail := mkFormattedDetail {
  fd_tokenId : string;
  fd_levels : list LevelDoc;
  fd_rollResult : option Z;
  fd_payout : option string;
  fd_timestamp : string;
  fd_transactionHash : string }.

(** [x || undefined] on an optional number and on an optional string. *)
Definition numberOrUndefined (x : option Z) : option Z :=
  match x with
  | Some 0 => None
  | _ => x
  end.

Definition stringOrUndefined (x : option string) : option string :=
  if Js.truthy x then x else None.

Section Listings.

(** [Date.prototype.toISOString]. *)
Variable toISOString : nat -> string.

(** The arrow function of [details.map]. *)
Definition formatDetail (detail : MintingDetailsDoc) : FormattedDetail :=
  mkFormattedDetail
    (md_tokenId detail)
    (map (fun level => mkLevelDoc (ld_winAmount level) (ld_rollNumber level))
         (md_levels detail))
    (numberOrUndefined (md_rollResult detail))
    (stringOrUndefined (md_payout detail))
    (toISOString (md_timestamp detail))
    (md_transactionHash detail).

(** The body of [GET /address/:address/minting-details]; only the
    ERC721 collection is consulted, and the address is used as it is
    given. *)
Definition getAddressMintingDetails (address : string) (w : World)
    : list FormattedDetail :=
  let tokenIds := distinct (map hd_tokenId (findByOwner address (ERC721Holding w))) in
  map formatDetail
    (sortDesc md_timestamp
       (filter (fun d => inValues (md_tokenId d) tokenIds) (MintingDetails w))).

(** The body of [GET /minting-details]. *)
Definition getAllMintingDetails (w : World) : list FormattedDetail :=
  map formatDetail (sortDesc md_timestamp (MintingDetails w)).

End Listings.

(** ** Definitions used to state further properties *)

(** A relation that says a property of the world, once true, stays
    true. *)
Definition Preserves (Inv : World -> Prop) : World -> World -> Prop :=
  fun w w' => Inv w -> Inv w'.

(** Every collection with a unique path respects its index. *)
Definition AllIndexed (w : World) : Prop :=
  uniqueKeys fb_address (ERC404Fungible w) /\
  uniqueKeys hd_tokenId (ERC404NFT w) /\
  uniqueKeys hd_tokenId (ERC721Holding w) /\
  uniqueKeys tx_transactionHash (ProcessedTransaction w) /\
  uniqueKeys md_tokenId (MintingDetails w).

(** Every stored balance is the numeral of an integer. *)
Definition Numerals (w : World) : Prop :=
  forall d, In d (ERC404Fungible w) -> exists z, fb_balance d = Js.toString z.

(** Every stored owner is in lower case. *)
Definition LowerOwners (w : World) : Prop :=
  (forall d, In d (ERC721Holding w) -> Js.toLowerCase (hd_owner d) = hd_owner d) /\
  (forall d, In d (ERC404NFT w) -> Js.toLowerCase (hd_owner d) = hd_owner d).

(** The openings of [w'] are those of [w], then new ones. *)
Definition OpeningsGrow : World -> World -> Prop :=
  fun w w' => exists added, Opening w' = Opening w ++ added.

(** A computation that leaves the world as it was when it throws. *)
Definition Atomic {A} (m : M A) : Prop :=
  forall w e w', m w = (Thrown e, w') -> w' = w.

(** A computation that never throws. *)
Definition NoThrow {A} (m : M A) : Prop :=
  forall w, exists a w', m w = (Returned a, w').

(** An [erc20Transfers] entry with its four fields present and truthy. *)
Definition wellFormed20 (t : Erc20Transfer) (contract from to value : string) : Prop :=
  et_contract t = Some contract /\ et_from t = Some from /\
  et_to t = Some to /\ et_value t = Some value /\
  Js.nonEmpty contract = true /\ Js.nonEmpty from = true /\
  Js.nonEmpty to = true /\ Js.nonEmpty value = true.

(** Timestamps in descending order. *)
Definition sortedDesc {D} (timestamp : D -> nat) (l : list D) : Prop :=
  StronglySorted (fun a b => (timestamp b <= timestamp a)%nat) l.

(** The number of sockets that are open. *)
Definition openCount (clients : list ReadyState) : nat :=
  List.length (filter (fun c => match c with OPEN => true | _ => false end) clients).

(** The list of tokens of a class that [GET /holdings/:address]
    reports. *)
Definition reported (m : HoldingModel) (body : HoldingsBody) : list string :=
  match m with
  | ERC721HoldingModel => hb_erc721 body
  | ERC404NFTModel => hb_nfts body
  end.

(** The world a computation ends in is the world it started in. *)
Definition Unchanged : World -> World -> Prop := fun w w' => w' = w.

(** The document a [TicketMinted] or resolution branch works on: the
    one found for the tokenId, or a new one. *)
Definition baseDetails (now : nat) (transactionHash tokenId : string) (w : World)
    : MintingDetailsDoc :=
  match findOne md_tokenId tokenId (MintingDetails w) with
  | Some d => d
  | None => mkMintingDetails tokenId [] None None now transactionHash
  end.

(** Further sample logs and worlds. *)

Definition overflowLog : Log :=
  mkLog (Some erc721Sample) (Some "9007199254740992") (Some "TicketMinted")
        (Some alice) (Some "7") None.

Definition openingLog : Log :=
  mkLog (Some erc404Sample) None (Some "TicketOpeningInitiated")
        (Some "7") (Some alice) None.

Definition rewardLog : Log :=
  mkLog (Some erc721Sample) (Some "9") (Some "RewardPaid") (Some alice)
        (Some "7") None.


Definition foreignLog : Log :=
  mkLog (Some alice) (Some "3") (Some "TicketMinted") (Some alice) (Some "7") None.

Definition aliceAddress : string := Js.toLowerCase alice.

(** Two balances, one of them negative, and one token of each class. *)
Definition bank : World :=
  mkWorld [mkFungible aliceAddress "-3"; mkFungible bobAddress "40"]
          [mkHolding "5" bobAddress] [mkHolding "7" aliceAddress]
          [] [mkOpening "7" 3 "0xaaa" ERC721 aliceAddress;
              mkOpening "7" 9 "0xbbb" ERC721 bobAddress;
              mkOpening "5" 4 "0xccc" ERC404 bobAddress]
          [] [CLOSED; OPEN; CONNECTING; OPEN] [].

Definition sampleISO (t : nat) : string := Js.toString (Z.of_nat t).

(** The world after the sample [TicketMinted] log. *)
Definition mintedWorld : World :=
  snd (logBody sampleParseLog 1 "0xabc" erc721Sample erc404Sample mintedLog tt emptyWorld).

(** * Properties *)

(** ** Numerals *)

Module JsFacts.
Import Js.

Lemma digit_facts c :
  isDigit c = true ->
  isWhiteSpace c = false /\ Ascii.eqb c "-" = false /\ Ascii.eqb c "+" = false /\
  Ascii.eqb c "x" = false /\ Ascii.eqb c "X" = false /\
  Ascii.eqb c "o" = false /\ Ascii.eqb c "O" = false /\
  Ascii.eqb c "b" = false /\ Ascii.eqb c "B" = false.
Proof.
  destruct c as [[] [] [] [] [] [] [] []]; intro H; vm_compute in H;
    try discriminate H; vm_compute; repeat split.
Qed.

Lemma allDigits_uint u : allDigits (NilEmpty.string_of_uint u) = true.
Proof. induction u; simpl; auto. Qed.

Lemma allDigits_uint' u : allDigits (NilZero.string_of_uint u) = true.
Proof. destruct u; try apply (allDigits_uint (_ _)); reflexivity. Qed.

Lemma nonEmpty_uint' u : nonEmpty (NilZero.string_of_uint u) = true.
Proof. destruct u; reflexivity. Qed.

Lemma trimStart_digits s : allDigits s = true -> trimStart s = s.
Proof.
  destruct s as [|c r]; simpl; [reflexivity|].
  intro H. apply andb_prop in H. destruct H as [H _].
  apply digit_facts in H. destruct H as [-> _]. reflexivity.
Qed.

Lemma trimEnd_digits s : allDigits s = true -> trimEnd s = s.
Proof.
  induction s as [|c r IH]; simpl; [reflexivity|].
  intro H. apply andb_prop in H. destruct H as [Hc Hr].
  rewrite (IH Hr). apply digit_facts in Hc. destruct Hc as [-> _].
  destruct r; reflexivity.
Qed.

Lemma trim_digits s : allDigits s = true -> trim s = s.
Proof.
  intro H. unfold trim. rewrite (trimStart_digits _ H). now apply trimEnd_digits.
Qed.

Lemma trim_minus_digits s :
  allDigits s = true -> nonEmpty s = true -> trim (String "-" s) = String "-" s.
Proof.
  intros H Hn. unfold trim. change (trimStart (String "-" s)) with (String "-" s).
  simpl. rewrite (trimEnd_digits _ H). destruct s; [discriminate|reflexivity].
Qed.

Lemma radixPrefix_digits s : allDigits s = true -> radixPrefix s = None.
Proof.
  destruct s as [|c0 [|c1 r]]; try reflexivity. simpl.
  intro H. apply andb_prop in H. destruct H as [_ H].
  apply andb_prop in H. destruct H as [H _]. apply digit_facts in H.
  destruct H as (_ & _ & _ & -> & -> & -> & -> & -> & ->).
  now destruct (Ascii.eqb c0 "0").
Qed.

Lemma decimalDigits_uint u :
  decimalDigits (NilZero.string_of_uint u) = Some (Z.of_uint u).
Proof.
  unfold decimalDigits. destruct u; try (rewrite NilZero.usu; [reflexivity|discriminate]).
  reflexivity.
Qed.

Lemma BigInt_digits u :
  BigInt (NilZero.string_of_uint u) = Some (Z.of_uint u).
Proof.
  pose proof (allDigits_uint' u) as H. pose proof (nonEmpty_uint' u) as Hn.
  unfold BigInt. rewrite (trim_digits _ H), <- decimalDigits_uint.
  destruct (NilZero.string_of_uint u) as [|c r] eqn:E; [discriminate|].
  rewrite (radixPrefix_digits _ H). simpl in H. apply andb_prop in H.
  destruct H as [H _]. apply digit_facts in H.
  destruct H as (_ & -> & -> & _). reflexivity.
Qed.

Lemma BigInt_minus_digits u :
  BigInt (String "-" (NilZero.string_of_uint u)) = Some (- Z.of_uint u).
Proof.
  pose proof (allDigits_uint' u) as H. pose proof (nonEmpty_uint' u) as Hn.
  unfold BigInt. rewrite (trim_minus_digits _ H Hn).
  replace (radixPrefix _) with (@None (Z * string)).
  - simpl. now rewrite decimalDigits_uint.
  - destruct (NilZero.string_of_uint u); reflexivity.
Qed.

(** Parsing the numeral of an integer gives the integer back. *)
Lemma BigInt_toString z : BigInt (toString z) = Some z.
Proof.
  unfold toString. rewrite <- (DecimalZ.of_to z) at 2.
  destruct (Z.to_int z) as [u|u]; simpl.
  - apply BigInt_digits.
  - apply BigInt_minus_digits.
Qed.

Lemma toString_nonEmpty z : nonEmpty (toString z) = true.
Proof.
  unfold toString. destruct (Z.to_int z) as [u|u]; simpl; [apply nonEmpty_uint'|reflexivity].
Qed.

Lemma toLowerCase_nonEmpty s : nonEmpty (toLowerCase s) = nonEmpty s.
Proof. destruct s; reflexivity. Qed.

End JsFacts.

(** ** Collections *)

Section CollectionFacts.
Context {D : Type} (key : D -> string).

Lemma hasKey_true k d : hasKey key k d = true <-> key d = k.
Proof. unfold hasKey. apply String.eqb_eq. Qed.

Lemma hasKey_false k d : hasKey key k d = false <-> key d <> k.
Proof. unfold hasKey. apply String.eqb_neq. Qed.

Lemma findOne_key k docs d : findOne key k docs = Some d -> key d = k.
Proof. intro H. apply find_some in H. now apply hasKey_true. Qed.

Lemma findOne_In k docs d : findOne key k docs = Some d -> In d docs.
Proof. intro H. now apply find_some in H. Qed.

Lemma findOne_None_existsb k docs :
  findOne key k docs = None -> existsb (hasKey key k) docs = false.
Proof.
  induction docs as [|x r IH]; simpl; [reflexivity|].
  destruct (hasKey key k x); [discriminate|exact IH].
Qed.

Lemma existsb_false_count k docs :
  existsb (hasKey key k) docs = false -> countKey key k docs = 0%nat.
Proof.
  unfold countKey. induction docs as [|x r IH]; simpl; [reflexivity|].
  destruct (hasKey key k x); [discriminate|exact IH].
Qed.

Lemma findOne_None_count k docs :
  findOne key k docs = None -> countKey key k docs = 0%nat.
Proof. intro H. now apply existsb_false_count, findOne_None_existsb. Qed.

Lemma countKey_app k a b :
  countKey key k (a ++ b) = (countKey key k a + countKey key k b)%nat.
Proof. unfold countKey. now rewrite filter_app, length_app. Qed.

Lemma findOne_app_new k docs d :
  findOne key k docs = None -> key d = k -> findOne key k (docs ++ [d]) = Some d.
Proof.
  intros H Hk. induction docs as [|x r IH]; simpl in *.
  - apply hasKey_true in Hk. now rewrite Hk.
  - destruct (hasKey key k x); [discriminate|auto].
Qed.

Lemma findOne_app_other k docs d :
  key d <> k -> findOne key k (docs ++ [d]) = findOne key k docs.
Proof.
  intro Hk. induction docs as [|x r IH]; simpl.
  - apply hasKey_false in Hk. now rewrite Hk.
  - now destruct (hasKey key k x).
Qed.

Lemma findOne_replaceOne k docs x d :
  findOne key k docs = Some x -> key d = k ->
  findOne key k (replaceOne key d docs) = Some d.
Proof.
  intros H Hk. subst k. induction docs as [|y r IH]; simpl in *; [discriminate|].
  destruct (hasKey key (key d) y) eqn:E; simpl.
  - now rewrite (proj2 (hasKey_true (key d) d) eq_refl).
  - rewrite E. auto.
Qed.

Lemma findOne_replaceOne_other k docs d :
  key d <> k -> findOne key k (replaceOne key d docs) = findOne key k docs.
Proof.
  intro Hk. induction docs as [|y r IH]; simpl; [reflexivity|].
  destruct (hasKey key (key d) y) eqn:E; simpl.
  - apply hasKey_true in E. apply hasKey_false in Hk. rewrite Hk.
    assert (hasKey key k y = false) as ->; [|reflexivity].
    apply hasKey_false. rewrite E. now apply hasKey_false.
  - now rewrite IH.
Qed.

Lemma In_replaceOne d docs x :
  In x (replaceOne key d docs) -> x = d \/ In x docs.
Proof.
  induction docs as [|y r IH]; simpl; [tauto|].
  destruct (hasKey key (key d) y); simpl; intros [H|H]; auto.
  destruct (IH H); auto.
Qed.

Lemma map_key_replaceOne d docs :
  map key (replaceOne key d docs) = map key docs.
Proof.
  induction docs as [|y r IH]; simpl; [reflexivity|].
  destruct (hasKey key (key d) y) eqn:E; simpl.
  - apply hasKey_true in E. now rewrite E.
  - now rewrite IH.
Qed.

Lemma countKey_map k docs docs' :
  map key docs = map key docs' -> countKey key k docs = countKey key k docs'.
Proof.
  unfold countKey. revert docs'.
  induction docs as [|x r IH]; intros [|y r'] H; simpl in *;
    try discriminate; [reflexivity|].
  injection H as Hk Hr.
  assert (hasKey key k x = hasKey key k y) as -> by (unfold hasKey; now rewrite Hk).
  destruct (hasKey key k y); simpl; auto.
Qed.

Lemma countKey_replaceOne k d docs :
  countKey key k (replaceOne key d docs) = countKey key k docs.
Proof. apply countKey_map, map_key_replaceOne. Qed.

Lemma uniqueKeys_replaceOne d docs :
  uniqueKeys key docs -> uniqueKeys key (replaceOne key d docs).
Proof. unfold uniqueKeys. now rewrite map_key_replaceOne. Qed.

Lemma notin_keys_filter k docs :
  ~ In k (map key docs) -> filter (fun d => negb (hasKey key k d)) docs = docs.
Proof.
  induction docs as [|x r IH]; simpl; [reflexivity|].
  intro H. assert (hasKey key k x = false) as ->.
  { apply hasKey_false. intro E. apply H. now left. }
  simpl. f_equal. apply IH. intro E. apply H. now right.
Qed.

(** Under the unique index, deleting the first match deletes every
    match. *)
Lemma deleteOne_unique k docs :
  uniqueKeys key docs ->
  deleteOne key k docs = filter (fun d => negb (hasKey key k d)) docs.
Proof.
  unfold uniqueKeys. induction docs as [|x r IH]; simpl; [reflexivity|].
  intro H. inversion H as [|? ? Hx Hr]; subst.
  destruct (hasKey key k x) eqn:E; simpl.
  - apply hasKey_true in E. subst k. symmetry. now apply notin_keys_filter.
  - f_equal. auto.
Qed.

Lemma existsb_filter_out k docs :
  existsb (hasKey key k) (filter (fun d => negb (hasKey key k d)) docs) = false.
Proof.
  induction docs as [|x r IH]; simpl; [reflexivity|].
  destruct (hasKey key k x) eqn:E; simpl; [exact IH|now rewrite E].
Qed.

Lemma keys_deleteOne_incl k docs x :
  In x (map key (deleteOne key k docs)) -> In x (map key docs).
Proof.
  induction docs as [|y r IH]; simpl; [tauto|].
  destruct (hasKey key k y); simpl; tauto.
Qed.

Lemma uniqueKeys_deleteOne k docs :
  uniqueKeys key docs -> uniqueKeys key (deleteOne key k docs).
Proof.
  unfold uniqueKeys. induction docs as [|y r IH]; simpl; [auto|].
  intro H. inversion H as [|? ? Hy Hr]; subst.
  destruct (hasKey key k y); simpl; [assumption|].
  constructor; [|auto]. intro E. apply Hy. eapply keys_deleteOne_incl, E.
Qed.

Lemma existsb_hasKey_In k docs :
  existsb (hasKey key k) docs = false -> ~ In k (map key docs).
Proof.
  induction docs as [|y r IH]; simpl; [tauto|].
  intro H. apply orb_false_elim in H. destruct H as [Hy Hr].
  apply hasKey_false in Hy. intros [E|E]; [contradiction|now apply IH].
Qed.

Lemma uniqueKeys_insertUnique d docs docs' :
  uniqueKeys key docs -> insertUnique key d docs = Some docs' ->
  uniqueKeys key docs'.
Proof.
  unfold uniqueKeys, insertUnique. intros H.
  destruct (existsb (hasKey key (key d)) docs) eqn:E; [discriminate|].
  intros [= <-]. rewrite map_app. simpl.
  apply existsb_hasKey_In in E.
  apply NoDup_app; [assumption|repeat constructor; auto|].
  intros x Hx [<-|[]]. contradiction.
Qed.


End CollectionFacts.

(** ** Frame rules of the monad

    A computation keeps a relation [R] between worlds when every run,
    returning or throwing, relates the world it starts in to the world
    it ends in.  For a reflexive and transitive [R] this is closed
    under the constructs the handler is written with. *)

Section Frame.
Context (R : World -> World -> Prop) `{FrameRel R}.

Lemma keeps_ret {A} (a : A) : Keeps R (ret a).
Proof. intro w. apply frame_refl. Qed.

Lemma keeps_throw {A} e : Keeps R (@throw A e).
Proof. intro w. apply frame_refl. Qed.

Lemma keeps_get {A} (f : World -> A) : Keeps R (get f).
Proof. intro w. apply frame_refl. Qed.

Lemma keeps_orThrow {A} e (o : option A) : Keeps R (orThrow e o).
Proof. destruct o; [apply keeps_ret|apply keeps_throw]. Qed.

Lemma keeps_modify f : (forall w, R w (f w)) -> Keeps R (modify f).
Proof. intros Hf w. apply Hf. Qed.

Lemma keeps_bind {A B} (m : M A) (k : A -> M B) :
  Keeps R m -> (forall a, Keeps R (k a)) -> Keeps R (bind m k).
Proof.
  intros Hm Hk w. unfold bind. specialize (Hm w).
  destruct (m w) as [[a|e] w']; simpl in *; [|assumption].
  eapply frame_trans; [exact Hm|apply Hk].
Qed.

Lemma keeps_when c m : Keeps R m -> Keeps R (when c m).
Proof. intro Hm. destruct c; [exact Hm|apply keeps_ret]. Qed.

Lemma keeps_tryCatch m : Keeps R m -> Keeps R (tryCatch m).
Proof.
  intros Hm w. unfold tryCatch. specialize (Hm w).
  now destruct (m w) as [[a|e] w'].
Qed.

Lemma keeps_forOf {A S} (body : A -> S -> M S) xs s :
  (forall x s', Keeps R (body x s')) -> Keeps R (forOf body xs s).
Proof.
  intro Hb. revert s. induction xs as [|x r IH]; intro s; simpl.
  - apply keeps_ret.
  - apply keeps_bind; [apply Hb|exact IH].
Qed.

End Frame.

Create HintDb frame.

(* One step of a frame proof: a lemma of the database, the rule of the
   head construct, or a case analysis on the condition the computation
   branches on. *)
Ltac keeps_step :=
  first
    [ solve [auto 1 with frame nocore]
    | apply keeps_ret | apply keeps_throw | apply keeps_get | apply keeps_orThrow
    | apply keeps_bind; [exact _| |intros]
    | apply keeps_when | apply keeps_tryCatch
    | apply keeps_forOf; intros
    | match goal with
      | |- Keeps _ (if ?c then _ else _) => destruct c
      | |- Keeps _ (match ?x with _ => _ end) => destruct x
      end ];
  try exact _.

Ltac keeps := repeat (cbv zeta; keeps_step).

(** ** What the three loops leave alone

    Before the last statement of the handler nothing touches the
    [ProcessedTransaction] collection: the loops over the transfers
    and over the logs keep it as it is, and what they add to the
    journal holds no creation of a [ProcessedTransaction] record. *)

#[export] Instance Quiet_frame : FrameRel Quiet.
Proof.
  split; unfold Quiet.
  - intro w. repeat split. exists []. now rewrite app_nil_r.
  - intros a b c (P1 & C1 & d1 & J1 & F1) (P2 & C2 & d2 & J2 & F2).
    repeat split; try congruence.
    exists (d1 ++ d2). rewrite J2, J1, app_assoc. split; [reflexivity|].
    apply Forall_app. now split.
Qed.

Lemma quiet_silent f :
  (forall w, ProcessedTransaction (f w) = ProcessedTransaction w) ->
  (forall w, wssClients (f w) = wssClients w) ->
  (forall w, journal (f w) = journal w) ->
  Keeps Quiet (modify f).
Proof.
  intros HP HC HJ w. simpl. repeat split; auto.
  exists []. rewrite HJ, app_nil_r. now split.
Qed.

Lemma quiet_record e : notMark e -> Keeps Quiet (record e).
Proof.
  intros He w. simpl. repeat split. exists [e]. split; [reflexivity|].
  now constructor.
Qed.

Lemma quiet_findOneAndDelete m k : Keeps Quiet (Holding_findOneAndDelete m k).
Proof.
  unfold Holding_findOneAndDelete. keeps.
  - apply quiet_silent; intro w; now destruct m.
  - apply quiet_record. now destruct m.
Qed.

Lemma quiet_create m d : Keeps Quiet (Holding_create m d).
Proof.
  unfold Holding_create. keeps.
  - apply quiet_silent; intro w; now destruct m.
  - apply quiet_record. now destruct m.
Qed.

Lemma quiet_fungible_save isNew d : Keeps Quiet (ERC404Fungible_save isNew d).
Proof.
  unfold ERC404Fungible_save. keeps;
    try (apply quiet_silent; intro w; reflexivity).
  now apply quiet_record.
Qed.

Lemma quiet_opening_create d : Keeps Quiet (Opening_create d).
Proof.
  unfold Opening_create. keeps;
    try (apply quiet_silent; intro w; reflexivity).
  now apply quiet_record.
Qed.

Lemma quiet_minting_save isNew d : Keeps Quiet (MintingDetails_save isNew d).
Proof.
  unfold MintingDetails_save. keeps;
    try (apply quiet_silent; intro w; reflexivity).
  now apply quiet_record.
Qed.

Lemma sendToOpen_notMark i cs f : Forall notMark (sendToOpen i cs f).
Proof.
  revert i. induction cs as [|c r IH]; intro i; simpl; [constructor|].
  destruct c; auto. constructor; [exact I|auto].
Qed.

Lemma quiet_broadcast ty k : Keeps Quiet (broadcastUpdate ty k).
Proof.
  intro w. simpl. repeat split. eexists. split; [reflexivity|].
  apply sendToOpen_notMark.
Qed.

#[export] Hint Resolve quiet_findOneAndDelete quiet_create quiet_fungible_save
  quiet_opening_create quiet_minting_save quiet_broadcast : frame.

Lemma quiet_update a v b : Keeps Quiet (updateERC404FungibleBalance a v b).
Proof.
  unfold updateERC404FungibleBalance. keeps.
Qed.

#[export] Hint Resolve quiet_update : frame.

Lemma quiet_nftTransferBody a b t s : Keeps Quiet (nftTransferBody a b t s).
Proof. unfold nftTransferBody. keeps; auto with frame. Qed.

Lemma quiet_erc20TransferBody a t u : Keeps Quiet (erc20TransferBody a t u).
Proof. unfold erc20TransferBody. keeps; auto with frame. Qed.

Section QuietLogs.
Variable parseLog : EventName -> LogInput -> ParseResult.

Lemma quiet_onEvent now h tt e args : Keeps Quiet (onEvent now h tt e args).
Proof.
  unfold onEvent, onTicketMinted, onTicketOpeningInitiated, onResolvedOrPaid.
  destruct e; keeps; auto with frame.
Qed.

Lemma quiet_logBody now h a b log u : Keeps Quiet (logBody parseLog now h a b log u).
Proof.
  unfold logBody, processLog. keeps; apply quiet_onEvent.
Qed.

End QuietLogs.

#[export] Hint Resolve quiet_nftTransferBody quiet_erc20TransferBody
  quiet_logBody : frame.

(** ** Runs of the handler *)

Lemma bind_run {A B} (m : M A) (k : A -> M B) w :
  bind m k w =
  match m w with
  | (Returned a, w') => k a w'
  | (Thrown e, w') => (Thrown e, w')
  end.
Proof. reflexivity. Qed.

Lemma bind_ret_l {A B} (a : A) (k : A -> M B) w : bind (ret a) k w = k a w.
Proof. reflexivity. Qed.

Lemma bind_get {A B} (f : World -> A) (k : A -> M B) w :
  bind (get f) k w = k (f w) w.
Proof. reflexivity. Qed.

Lemma bind_assoc {A B C} (m : M A) (k1 : A -> M B) (k2 : B -> M C) w :
  bind (bind m k1) k2 w = bind m (fun a => bind (k1 a) k2) w.
Proof. unfold bind. now destruct (m w) as [[a|e] w']. Qed.

Lemma seq_assoc {A} (a b c : M unit) (k : M A) w :
  (a ;; b ;; c ;; k) w = ((a ;; b ;; c) ;; k) w.
Proof.
  unfold bind. destruct (a w) as [[[]|e] w1]; trivial.
  destruct (b w1) as [[[]|e] w2]; trivial.
Qed.

Lemma bind_returned {A B} (m : M A) (k : A -> M B) w b w2 :
  bind m k w = (Returned b, w2) ->
  exists a w1, m w = (Returned a, w1) /\ k a w1 = (Returned b, w2).
Proof.
  unfold bind. destruct (m w) as [[a|e] w1]; [|discriminate].
  intro H. now exists a, w1.
Qed.

Lemma create_run now h w :
  Js.nonEmpty h = true ->
  findOne tx_transactionHash h (ProcessedTransaction w) = None ->
  ProcessedTransaction_create now h w =
  (Returned tt,
   setJournal (journal w ++ [Created ProcessedTransactionM h])
     (setProcessedTransaction (ProcessedTransaction w ++ [mkTransaction h now]) w)).
Proof.
  intros Hh Hf. unfold ProcessedTransaction_create. rewrite Hh. simpl.
  unfold bind, get, insertUnique. simpl.
  now rewrite (findOne_None_existsb _ _ _ Hf).
Qed.

Section Properties.
Variable parseLog : EventName -> LogInput -> ParseResult.

Lemma quiet_loops now h body : Keeps Quiet (loops parseLog now h body).
Proof.
  unfold loops. simpl. keeps;
    auto with frame.
Qed.

Lemma webhookBody_path now body w :
  Path parseLog now body w (webhookBody parseLog now body w).
Proof.
  unfold webhookBody. destruct (confirmed body) eqn:Hc.
  { now constructor. }
  destruct (firstTransactionHash body) as [[|c h]|] eqn:Hh;
    try (now constructor; [assumption|rewrite Hh]).
  rewrite bind_run. unfold get.
  destruct (findOne _ _ _) as [d|] eqn:Hf.
  { eapply PathAlreadyProcessed; eauto. }
  assert (Js.nonEmpty (String c h) = true) as Hn by reflexivity.
  pose proof (PathApplied parseLog now body w (String c h) Hc Hh Hn Hf) as P.
  unfold loops in P. simpl nth_error in P. cbv iota in P.
  rewrite <- seq_assoc in P. exact P.
Qed.

Lemma webhook_run now body w :
  webhook parseLog now body w =
  match webhookBody parseLog now body w with
  | (Returned response, w') => (response, w')
  | (Thrown _, w') =>
      (mkResponse 200 "Error occurred but returning 200 to prevent retries", w')
  end.
Proof. reflexivity. Qed.

(** A payload without transfer entries carries no transaction hash,
    whatever its logs. *)
Lemma no_transfers_no_hash body :
  (nftTransfers body = None \/ nftTransfers body = Some []) ->
  (erc20Transfers body = None \/ erc20Transfers body = Some []) ->
  Js.truthy (firstTransactionHash body) = false.
Proof.
  unfold firstTransactionHash. intros [-> | ->] [-> | ->]; reflexivity.
Qed.

(** The guard of the handler: with a record of the transaction in
    [ProcessedTransaction], the payload is answered and nothing else
    happens. *)
Lemma already_processed_is_skipped now body w h d :
  confirmed body = false ->
  firstTransactionHash body = Some h -> Js.nonEmpty h = true ->
  findOne tx_transactionHash h (ProcessedTransaction w) = Some d ->
  webhook parseLog now body w =
  (mkResponse 200 "Transaction already processed", w).
Proof.
  intros Hc Hh Hn Hf. rewrite webhook_run.
  destruct (webhookBody_path now body w) as [C|C T|h' d' C E N F|h' C E N F];
    try congruence; try reflexivity.
  rewrite Hh in T. simpl in T. congruence.
Qed.

(** A run that answers 'Holdings updated successfully' went through
    the three loops and then created the record of the transaction. *)
Lemma success_run now body w r w1 :
  webhook parseLog now body w = (r, w1) ->
  message r = "Holdings updated successfully" ->
  exists h w',
    confirmed body = false /\
    firstTransactionHash body = Some h /\ Js.nonEmpty h = true /\
    findOne tx_transactionHash h (ProcessedTransaction w) = None /\
    loops parseLog now h body w = (Returned tt, w') /\
    w1 = setJournal (journal w' ++ [Created ProcessedTransactionM h])
           (setProcessedTransaction
              (ProcessedTransaction w' ++ [mkTransaction h now]) w').
Proof.
  rewrite webhook_run.
  destruct (webhookBody_path now body w) as [C|C T|h d C E N F|h C E N F];
    try (intros [= <- <-] M; discriminate M).
  rewrite bind_run. destruct (loops parseLog now h body w) as [[[]|e] w'] eqn:L.
  - pose proof (quiet_loops now h body w) as Q. rewrite L in Q.
    destruct Q as (QP & _). simpl in QP.
    rewrite bind_run, create_run; [|assumption|now rewrite QP].
    intros [= <- <-] _. now exists h, w'.
  - intros [= <- <-] M. discriminate M.
Qed.

(** C7: a payload whose [confirmed] field is true is answered 200
    with the skip message, and the world (every collection, and the
    journal of writes and frames) is left as it was. *)
Theorem confirmed_payload_is_skipped now body w :
  confirmed body = true ->
  webhook parseLog now body w =
  (mkResponse 200 "Skipped confirmed transaction", w).
Proof.
  intro H. unfold webhook, webhookBody. now rewrite H.
Qed.

(** C10: when neither the first entry of [nftTransfers] nor the first
    entry of [erc20Transfers] gives a truthy [transactionHash], the
    payload is answered 200 with 'No transaction hash found' and the
    world is left as it was: no log is decoded, nothing is written. *)
Theorem no_transaction_hash_is_skipped now body w :
  confirmed body = false ->
  Js.truthy (firstTransactionHash body) = false ->
  webhook parseLog now body w =
  (mkResponse 200 "No transaction hash found", w).
Proof.
  intros Hc Hh. unfold webhook, webhookBody. rewrite Hc.
  destruct (firstTransactionHash body) as [[|c s]|]; try reflexivity.
  discriminate Hh.
Qed.

(** C9: whatever the payload and the world, the response status is
    200; when the statements of the handler throw, the [catch] answers
    200 with the error message. *)
Theorem webhook_always_200 now body w :
  status (fst (webhook parseLog now body w)) = 200%nat /\
  (forall e w', webhookBody parseLog now body w = (Thrown e, w') ->
     webhook parseLog now body w =
     (mkResponse 200 "Error occurred but returning 200 to prevent retries", w')).
Proof.
  split.
  - rewrite webhook_run.
    destruct (webhookBody_path now body w) as [C|C T|h d C E N F|h C E N F];
      try reflexivity.
    rewrite bind_run. destruct (loops parseLog now h body w) as [[[]|e] w']; [|reflexivity].
    rewrite bind_run. now destruct (ProcessedTransaction_create now h w') as [[[]|e] w2].
  - intros e w' H. rewrite webhook_run, H. reflexivity.
Qed.

(** C1, as the code has it: when a first processing of a payload runs
    to its end (it answers 'Holdings updated successfully'), the
    transaction had no [ProcessedTransaction] record before, has
    exactly one after, and processing the same payload again finds
    that record before any effect: it answers 'Transaction already
    processed' and leaves the world as it is, as it does in every
    world that holds a record of the transaction. *)
Theorem redelivery_after_success now now' body w r w1 :
  webhook parseLog now body w = (r, w1) ->
  message r = "Holdings updated successfully" ->
  exists h,
    firstTransactionHash body = Some h /\
    countKey tx_transactionHash h (ProcessedTransaction w) = 0%nat /\
    countKey tx_transactionHash h (ProcessedTransaction w1) = 1%nat /\
    webhook parseLog now' body w1 =
    (mkResponse 200 "Transaction already processed", w1) /\
    (forall w2 d,
       findOne tx_transactionHash h (ProcessedTransaction w2) = Some d ->
       webhook parseLog now' body w2 =
       (mkResponse 200 "Transaction already processed", w2)).
Proof.
  intros Hrun Hmsg.
  destruct (success_run _ _ _ _ _ Hrun Hmsg) as (h & w' & C & E & N & F & L & ->).
  pose proof (quiet_loops now h body w) as Q. rewrite L in Q.
  destruct Q as (QP & _). simpl in QP.
  exists h. split; [assumption|]. split; [now apply findOne_None_count|].
  simpl. split; [|split].
  - rewrite countKey_app, QP, (findOne_None_count _ _ _ F). simpl.
    unfold countKey, hasKey. simpl. now rewrite String.eqb_refl.
  - eapply already_processed_is_skipped; eauto. simpl.
    apply findOne_app_new; [now rewrite QP|reflexivity].
  - intros w2 d G. eapply already_processed_is_skipped; eauto.
Qed.

(** C8, as the code has it: in a run that answers 'Holdings updated
    successfully' the creation of the [ProcessedTransaction] record is
    the last effect.  What the run adds to the journal is a list [d]
    of effects, none of them that creation, followed by the creation:
    every frame of the run is sent before the record exists. *)
Theorem notified_before_marked now body w r w1 :
  webhook parseLog now body w = (r, w1) ->
  message r = "Holdings updated successfully" ->
  exists h d,
    firstTransactionHash body = Some h /\
    findOne tx_transactionHash h (ProcessedTransaction w) = None /\
    journal w1 = journal w ++ d ++ [Created ProcessedTransactionM h] /\
    Forall notMark d /\
    (forall client f, In (Sent client f) (d ++ [Created ProcessedTransactionM h]) ->
       In (Sent client f) d).
Proof.
  intros Hrun Hmsg.
  destruct (success_run _ _ _ _ _ Hrun Hmsg) as (h & w' & C & E & N & F & L & ->).
  pose proof (quiet_loops now h body w) as Q. rewrite L in Q.
  destruct Q as (_ & _ & d & J & D). simpl in J.
  exists h, d. repeat split; try assumption.
  - simpl. now rewrite J, app_assoc.
  - intros client f H. apply in_app_or in H. destruct H as [H|[H|[]]];
      [assumption|discriminate H].
Qed.

(** ** Fungible balances *)

Lemma toString_inj z z' : Js.toString z = Js.toString z' -> z = z'.
Proof.
  intro H. apply (f_equal Js.BigInt) in H.
  rewrite !JsFacts.BigInt_toString in H. congruence.
Qed.

(** What one call of [updateERC404FungibleBalance] does on an address
    whose balance is a numeral: it throws before any write when the
    amount is not an integer literal, or when the address is new and
    empty; otherwise it returns and the balance is the numeral of the
    sum or of the difference. *)
Lemma update_spec address amount isAddition w z :
  fungibleBalance address w = Js.toString z ->
  match Js.BigInt amount with
  | None => snd (updateERC404FungibleBalance address amount isAddition w) = w
  | Some a =>
      match findOne fb_address address (ERC404Fungible w) with
      | None =>
          if Js.nonEmpty address then
            exists w',
              updateERC404FungibleBalance address amount isAddition w = (Returned tt, w') /\
              findOne fb_address address (ERC404Fungible w') <> None /\
              fungibleBalance address w' =
              Js.toString (if isAddition then z + a else z - a)
          else snd (updateERC404FungibleBalance address amount isAddition w) = w
      | Some _ =>
          exists w',
            updateERC404FungibleBalance address amount isAddition w = (Returned tt, w') /\
            findOne fb_address address (ERC404Fungible w') <> None /\
            fungibleBalance address w' =
            Js.toString (if isAddition then z + a else z - a)
      end
  end.
Proof.
  unfold fungibleBalance, updateERC404FungibleBalance. intro Hz.
  rewrite bind_run. unfold get.
  destruct (findOne fb_address address (ERC404Fungible w)) as [d|] eqn:F.
  - rewrite Hz, JsFacts.BigInt_toString. simpl.
    destruct (Js.BigInt amount) as [a|]; [|reflexivity].
    simpl. eexists. split; [reflexivity|]. simpl.
    pose proof (findOne_key _ _ _ _ F) as K.
    erewrite findOne_replaceOne; [|exact F|exact K].
    split; [discriminate|]. simpl. now destruct isAddition.
  - change (Js.BigInt "0") with (Some 0). simpl.
    assert (z = 0) as -> by (apply toString_inj; now rewrite <- Hz).
    destruct (Js.BigInt amount) as [a|]; [|reflexivity].
    unfold ERC404Fungible_save. simpl.
    destruct (Js.nonEmpty address) eqn:N; simpl; [|reflexivity].
    change (Z.of_uint (Decimal.D0 Decimal.Nil)) with 0.
    unfold bind, ret, get, insertUnique, modify, record. simpl.
    rewrite (findOne_None_existsb _ _ _ F). simpl.
    eexists. split; [reflexivity|]. simpl.
    erewrite findOne_app_new; [|exact F|reflexivity].
    split; [discriminate|]. simpl. now destruct isAddition.
Qed.

(** C2: on an address whose balance is the numeral of an integer,
    adding an amount and then subtracting the same amount gives back
    the very string the balance was, for every address and every
    amount string; and when the amount is an integer literal the
    balance in between is the numeral of the exact sum. *)
Theorem balance_round_trip address amount w :
  (exists z, fungibleBalance address w = Js.toString z) ->
  let w1 := snd (updateERC404FungibleBalance address amount true w) in
  let w2 := snd (updateERC404FungibleBalance address amount false w1) in
  fungibleBalance address w2 = fungibleBalance address w /\
  (forall z a,
     fungibleBalance address w = Js.toString z ->
     Js.BigInt amount = Some a -> Js.nonEmpty address = true ->
     fungibleBalance address w1 = Js.toString (z + a)).
Proof.
  intros [z Hz] w1 w2.
  pose proof (update_spec address amount true w z Hz) as S1.
  assert (forall w', updateERC404FungibleBalance address amount true w = (Returned tt, w') ->
          forall a, Js.BigInt amount = Some a ->
          findOne fb_address address (ERC404Fungible w') <> None ->
          fungibleBalance address w' = Js.toString (z + a) ->
          fungibleBalance address
            (snd (updateERC404FungibleBalance address amount false w')) =
          Js.toString z) as Back.
  { intros w' _ a Ha Hf Hb.
    pose proof (update_spec address amount false w' (z + a) Hb) as S2.
    rewrite Ha in S2.
    destruct (findOne fb_address address (ERC404Fungible w')); [|contradiction].
    destruct S2 as (w'' & R & _ & B). rewrite R. simpl. rewrite B.
    f_equal. lia. }
  split.
  - subst w2 w1. destruct (Js.BigInt amount) as [a|] eqn:Ha.
    + destruct (findOne fb_address address (ERC404Fungible w)) eqn:F.
      * destruct S1 as (w' & R & Hf & Hb). rewrite R. simpl.
        rewrite Hz. eapply Back; eauto.
      * destruct (Js.nonEmpty address) eqn:N.
        -- destruct S1 as (w' & R & Hf & Hb). rewrite R. simpl.
           rewrite Hz. eapply Back; eauto.
        -- rewrite S1.
           pose proof (update_spec address amount false w z Hz) as S2.
           rewrite Ha, F, N in S2. now rewrite S2.
    + rewrite S1.
      pose proof (update_spec address amount false w z Hz) as S2.
      rewrite Ha in S2. now rewrite S2.
  - intros z' a Hz' Ha N. subst w1. rewrite Ha, N in S1.
    assert (z' = z) as -> by (apply toString_inj; congruence).
    destruct (findOne fb_address address (ERC404Fungible w));
      destruct S1 as (w' & R & _ & B); rewrite R; exact B.
Qed.

(** Balances stay numerals: a call leaves every balance of the
    collection the numeral of an integer. *)
Lemma update_keeps_numerals address amount isAddition w :
  (forall d, In d (ERC404Fungible w) -> exists z, fb_balance d = Js.toString z) ->
  forall d,
    In d (ERC404Fungible (snd (updateERC404FungibleBalance address amount isAddition w))) ->
    exists z, fb_balance d = Js.toString z.
Proof.
  intros Hw d. unfold updateERC404FungibleBalance.
  rewrite bind_run. unfold get.
  destruct (findOne fb_address address (ERC404Fungible w)) as [x|] eqn:F; simpl.
  - destruct (Js.BigInt (fb_balance x)) as [c|]; simpl; [|apply Hw].
    destruct (Js.BigInt amount) as [a|]; simpl; [|apply Hw].
    intro H. apply In_replaceOne in H. destruct H as [->|H]; [|now apply Hw].
    destruct isAddition; eexists; reflexivity.
  - change (Js.BigInt "0") with (Some 0). simpl.
    destruct (Js.BigInt amount) as [a|]; simpl; [|apply Hw].
    unfold ERC404Fungible_save. simpl.
    destruct (Js.nonEmpty address) eqn:N; simpl; [|apply Hw].
    change (Z.of_uint (Decimal.D0 Decimal.Nil)) with 0.
    unfold bind, ret, get, insertUnique, modify, record. simpl.
    rewrite (findOne_None_existsb _ _ _ F). simpl.
    intro H. apply in_app_or in H. destruct H as [H|[<-|[]]]; [now apply Hw|].
    destruct isAddition; eexists; reflexivity.
Qed.

(** ** NFT ownership *)

#[local] Instance KeepsIndex_frame : FrameRel KeepsIndex.
Proof. split; unfold KeepsIndex; auto. Qed.

Lemma index_findOneAndDelete m k : Keeps KeepsIndex (Holding_findOneAndDelete m k).
Proof.
  intros w [H1 H2]. unfold Holding_findOneAndDelete, Indexed.
  destruct m; simpl; split; auto using uniqueKeys_deleteOne.
Qed.

Lemma index_create m d : Keeps KeepsIndex (Holding_create m d).
Proof.
  intros w [H1 H2]. unfold Holding_create.
  destruct (negb _); [now split|].
  rewrite bind_run. unfold get.
  destruct (insertUnique hd_tokenId d (holdings m w)) as [docs'|] eqn:E; [|now split].
  unfold Indexed. destruct m; simpl in *; split;
    eauto using uniqueKeys_insertUnique.
Qed.

Lemma index_silent f :
  (forall w, ERC721Holding (f w) = ERC721Holding w) ->
  (forall w, ERC404NFT (f w) = ERC404NFT w) ->
  Keeps KeepsIndex (modify f).
Proof. intros H1 H2 w. unfold KeepsIndex, Indexed. simpl. now rewrite H1, H2. Qed.

#[local] Hint Resolve index_findOneAndDelete index_create : frame.

Lemma index_nftTransferBody a b t s : Keeps KeepsIndex (nftTransferBody a b t s).
Proof. unfold nftTransferBody. keeps. Qed.

Lemma applyTokenTransfer_run m tokenId from to w :
  uniqueKeys hd_tokenId (holdings m w) ->
  Js.nonEmpty tokenId = true -> Js.nonEmpty to = true ->
  from <> zeroAddress ->
  applyTokenTransfer m tokenId from to w =
  (Returned tt,
   setJournal
     (journal w ++ [FoundAndDeleted (modelOf m) tokenId; Created (modelOf m) tokenId])
     (setHoldings m
        (filter (fun d => negb (hasKey hd_tokenId tokenId d)) (holdings m w)
         ++ [mkHolding tokenId (Js.toLowerCase to)]) w)).
Proof.
  intros U Nt Nto Hz. unfold applyTokenTransfer.
  apply String.eqb_neq in Hz. rewrite Hz. simpl.
  unfold Holding_findOneAndDelete, Holding_create. simpl.
  rewrite Nt, JsFacts.toLowerCase_nonEmpty, Nto. simpl.
  unfold bind, get, modify, record, insertUnique. simpl.
  rewrite (deleteOne_unique _ _ _ U).
  destruct m; simpl; rewrite existsb_filter_out; simpl;
    unfold modify, setJournal, setERC721Holding, setERC404NFT; simpl;
    now rewrite <- app_assoc.
Qed.

(** An applied entry runs the transfer of its class; only an entry of
    the ERC404 class enters [processedTokenIds]. *)
Lemma nftTransferBody_applied a721 a404 t processed contract tokenId from to m w :
  wellFormed t contract tokenId from to ->
  transferClass a721 a404 contract = Some m ->
  member tokenId processed = false ->
  nftTransferBody a721 a404 t processed w =
  (applyTokenTransfer m tokenId from to ;;
   ret match m with
       | ERC721HoldingModel => processed
       | ERC404NFTModel => processed ++ [tokenId]
       end) w.
Proof.
  intros (F1 & F2 & F3 & F4 & N1 & N2 & N3 & N4) C P.
  unfold nftTransferBody, transferClass in *.
  rewrite F1, F2, F3, F4, N1, N2, N3, N4, P. simpl.
  unfold applyTokenTransfer. rewrite bind_assoc.
  destruct (String.eqb (Js.toLowerCase contract) (Js.toLowerCase a721)).
  - injection C as <-. reflexivity.
  - destruct (String.eqb (Js.toLowerCase contract) (Js.toLowerCase a404));
      [|discriminate]. injection C as <-. reflexivity.
Qed.

(** An entry whose tokenId is in [processedTokenIds] is skipped. *)
Lemma nftTransferBody_skipped a721 a404 t processed tokenId w :
  nt_tokenId t = Some tokenId ->
  member tokenId processed = true ->
  nftTransferBody a721 a404 t processed w = (Returned processed, w).
Proof.
  intros T P. unfold nftTransferBody. rewrite T.
  destruct (nt_contract t), (nt_from t), (nt_to t); try reflexivity.
  destruct (negb _); [reflexivity|]. now rewrite P.
Qed.

(** C3: every entry of [nftTransfers] keeps the unique index of both
    holdings collections (at most one owner record per tokenId); and
    an applied transfer with a non-zero [from] leaves, in the
    collection of its class, no record of the tokenId but the one it
    creates: the records of the tokenId that were there are gone,
    exactly one record has the tokenId, and its owner is [to] in lower
    case. *)
Theorem nft_transfer_single_owner a721 a404 t processed w :
  uniqueKeys hd_tokenId (ERC721Holding w) ->
  uniqueKeys hd_tokenId (ERC404NFT w) ->
  let w' := snd (nftTransferBody a721 a404 t processed w) in
  (uniqueKeys hd_tokenId (ERC721Holding w') /\
   uniqueKeys hd_tokenId (ERC404NFT w')) /\
  forall m contract tokenId from to,
    wellFormed t contract tokenId from to ->
    transferClass a721 a404 contract = Some m ->
    member tokenId processed = false ->
    from <> zeroAddress ->
    (exists processed',
       nftTransferBody a721 a404 t processed w = (Returned processed', w')) /\
    holdings m w' =
      filter (fun d => negb (hasKey hd_tokenId tokenId d)) (holdings m w)
      ++ [mkHolding tokenId (Js.toLowerCase to)] /\
    countKey hd_tokenId tokenId (holdings m w') = 1%nat /\
    findOne hd_tokenId tokenId (holdings m w') =
      Some (mkHolding tokenId (Js.toLowerCase to)).
Proof.
  intros U1 U2 w'. split.
  { apply (index_nftTransferBody a721 a404 t processed w). now split. }
  intros m contract tokenId from to WF C P Z.
  assert (uniqueKeys hd_tokenId (holdings m w)) as U by now destruct m.
  pose proof (nftTransferBody_applied _ _ _ _ _ _ _ _ _ w WF C P) as R.
  destruct WF as (_ & _ & _ & _ & _ & Nt & _ & Nto).
  rewrite bind_run, (applyTokenTransfer_run _ _ _ _ _ U Nt Nto Z) in R.
  subst w'. rewrite R. simpl.
  set (rest := filter _ (holdings m w)).
  assert (holdings m
            (setJournal
               (journal w ++ [FoundAndDeleted (modelOf m) tokenId;
                              Created (modelOf m) tokenId])
               (setHoldings m (rest ++ [mkHolding tokenId (Js.toLowerCase to)]) w))
          = rest ++ [mkHolding tokenId (Js.toLowerCase to)]) as -> by now destruct m.
  assert (existsb (hasKey hd_tokenId tokenId) rest = false) as E
    by apply existsb_filter_out.
  split; [eexists; reflexivity|]. split; [reflexivity|]. split.
  - rewrite countKey_app, (existsb_false_count _ _ _ E). simpl.
    unfold countKey, hasKey. simpl. now rewrite String.eqb_refl.
  - apply findOne_app_new; [|reflexivity].
    unfold findOne. destruct (find _ rest) as [d|] eqn:F; [|reflexivity].
    apply find_some in F. destruct F as [I K].
    assert (existsb (hasKey hd_tokenId tokenId) rest = true) as X
      by (apply existsb_exists; exists d; now split).
    congruence.
Qed.

(** ** Duplicate tokenIds within a payload *)

Lemma forOf_app {A S} (body : A -> S -> M S) l1 l2 s w :
  forOf body (l1 ++ l2) s w = (s' <- forOf body l1 s ;; forOf body l2 s') w.
Proof.
  revert s w. induction l1 as [|x r IH]; intros s w; simpl; [reflexivity|].
  rewrite !bind_run. destruct (body x s w) as [[s1|e] w1]; [|reflexivity].
  rewrite IH. reflexivity.
Qed.


(** [processedTokenIds] only grows. *)
Lemma nftTransferBody_grows a721 a404 t s w s' w' x :
  nftTransferBody a721 a404 t s w = (Returned s', w') ->
  member x s = true -> member x s' = true.
Proof.
  unfold nftTransferBody, member.
  destruct (nt_contract t), (nt_tokenId t), (nt_from t), (nt_to t);
    try (intros [= <- <-]; trivial).
  destruct (negb _); [intros [= <- <-]; trivial|].
  destruct (existsb _ s); [intros [= <- <-]; trivial|].
  destruct (String.eqb _ _).
  - intro H. apply bind_returned in H. destruct H as (? & ? & _ & H).
    apply bind_returned in H. destruct H as (? & ? & _ & H).
    injection H as <- <-. trivial.
  - destruct (String.eqb _ _); [|intros [= <- <-]; trivial].
    intro H. apply bind_returned in H. destruct H as (? & ? & _ & H).
    apply bind_returned in H. destruct H as (? & ? & _ & H).
    injection H as <- <-. intro X. rewrite existsb_app, X. reflexivity.
Qed.

Lemma nftLoop_grows a721 a404 ts s w s' w' x :
  forOf (nftTransferBody a721 a404) ts s w = (Returned s', w') ->
  member x s = true -> member x s' = true.
Proof.
  revert s w. induction ts as [|t r IH]; intros s w; simpl.
  - intros [= <- <-]. trivial.
  - intro H. apply bind_returned in H. destruct H as (s1 & w1 & B & H).
    intro X. eapply IH; [exact H|]. eapply nftTransferBody_grows; eauto.
Qed.

(** After a well-formed entry on the ERC404 contract, its tokenId is
    in [processedTokenIds]. *)
Lemma erc404_entry_marks a721 a404 t contract tokenId from to s w s' w' :
  wellFormed t contract tokenId from to ->
  transferClass a721 a404 contract = Some ERC404NFTModel ->
  nftTransferBody a721 a404 t s w = (Returned s', w') ->
  member tokenId s' = true.
Proof.
  intros WF C. destruct (member tokenId s) eqn:X.
  - intro H. eapply nftTransferBody_grows; eauto.
  - rewrite (nftTransferBody_applied _ _ _ _ _ _ _ _ _ w WF C X).
    intro H. apply bind_returned in H. destruct H as (? & ? & _ & H).
    injection H as <- <-. unfold member. rewrite existsb_app. simpl.
    rewrite String.eqb_refl. now rewrite orb_true_r.
Qed.

(** An entry that is not on the ERC404 contract with tokenId [x]
    does not put [x] in [processedTokenIds]. *)
Lemma nftTransferBody_absent a721 a404 t s w s' w' x :
  nftTransferBody a721 a404 t s w = (Returned s', w') ->
  ~ onERC404With a721 a404 x t ->
  member x s = false -> member x s' = false.
Proof.
  unfold nftTransferBody, onERC404With, transferClass, member.
  destruct (nt_contract t) as [c|], (nt_tokenId t) as [k|], (nt_from t), (nt_to t);
    try (intros [= <- <-]; trivial).
  destruct (negb _); [intros [= <- <-]; trivial|].
  destruct (existsb _ s); [intros [= <- <-]; trivial|].
  destruct (String.eqb (Js.toLowerCase c) (Js.toLowerCase a721)) eqn:E1.
  - intro H. apply bind_returned in H. destruct H as (? & ? & _ & H).
    apply bind_returned in H. destruct H as (? & ? & _ & H).
    injection H as <- <-. trivial.
  - destruct (String.eqb (Js.toLowerCase c) (Js.toLowerCase a404)) eqn:E2;
      [|intros [= <- <-]; trivial].
    intro H. apply bind_returned in H. destruct H as (? & ? & _ & H).
    apply bind_returned in H. destruct H as (? & ? & _ & H).
    injection H as <- <-. intros Not X. rewrite existsb_app, X. simpl.
    rewrite orb_false_r. apply String.eqb_neq. intros ->.
    apply Not. exists c. now rewrite E1, E2.
Qed.

Lemma nftLoop_absent a721 a404 ts s w s' w' x :
  forOf (nftTransferBody a721 a404) ts s w = (Returned s', w') ->
  Forall (fun t => ~ onERC404With a721 a404 x t) ts ->
  member x s = false -> member x s' = false.
Proof.
  revert s w. induction ts as [|t r IH]; intros s w; simpl.
  - intros [= <- <-]. trivial.
  - intro H. apply bind_returned in H. destruct H as (s1 & w1 & B & H).
    intros F X. inversion F as [|? ? Ft Fr]; subst.
    eapply IH; [exact H|exact Fr|]. eapply nftTransferBody_absent; eauto.
Qed.

(** C6, as the code has it: the handler skips an entry of
    [nftTransfers] when an earlier entry of the ERC404 contract with
    the same tokenId was reached, whatever the contract of the later
    entry, so that removing the later entry from the payload changes
    nothing; entries of the ERC721 contract put nothing in
    [processedTokenIds], so that an entry of the ERC721 contract is
    applied, after the entries before it, whenever none of these is on
    the ERC404 contract with its tokenId: duplicates among ERC721
    entries are each applied. *)
Theorem duplicate_tokenId_suppression
    a721 a404 t1 t2 contract1 contract2 tokenId from1 to1 from2 to2 :
  wellFormed t1 contract1 tokenId from1 to1 ->
  wellFormed t2 contract2 tokenId from2 to2 ->
  (transferClass a721 a404 contract1 = Some ERC404NFTModel ->
   forall pre mid post processed w,
     forOf (nftTransferBody a721 a404) (pre ++ t1 :: mid ++ t2 :: post) processed w =
     forOf (nftTransferBody a721 a404) (pre ++ t1 :: mid ++ post) processed w) /\
  (transferClass a721 a404 contract2 = Some ERC721HoldingModel ->
   forall pre processed w,
     member tokenId processed = false ->
     Forall (fun t => ~ onERC404With a721 a404 tokenId t) pre ->
     forOf (nftTransferBody a721 a404) (pre ++ [t2]) processed w =
     (processed' <- forOf (nftTransferBody a721 a404) pre processed ;;
      applyTokenTransfer ERC721HoldingModel tokenId from2 to2 ;;
      ret processed') w).
Proof.
  intros WF1 WF2. split.
  - intros C pre mid post processed w.
    rewrite !forOf_app, !bind_run.
    destruct (forOf _ pre processed w) as [[s0|e] w0]; [|reflexivity].
    simpl. rewrite !bind_run.
    destruct (nftTransferBody a721 a404 t1 s0 w0) as [[s1|e] w1] eqn:B1;
      [|reflexivity].
    pose proof (erc404_entry_marks _ _ _ _ _ _ _ _ _ _ _ WF1 C B1) as X1.
    rewrite !forOf_app, !bind_run.
    destruct (forOf _ mid s1 w1) as [[s2|e] w2] eqn:B2; [|reflexivity].
    pose proof (nftLoop_grows _ _ _ _ _ _ _ _ B2 X1) as X2.
    simpl. rewrite bind_run.
    destruct WF2 as (_ & T2 & _).
    now rewrite (nftTransferBody_skipped _ _ _ _ _ _ T2 X2).
  - intros C2 pre processed w X F.
    rewrite forOf_app, !bind_run.
    destruct (forOf _ pre processed w) as [[s0|e] w0] eqn:B0; [|reflexivity].
    pose proof (nftLoop_absent _ _ _ _ _ _ _ _ B0 F X) as X0.
    simpl. rewrite !bind_run.
    rewrite (nftTransferBody_applied _ _ _ _ _ _ _ _ _ w0 WF2 C2 X0), !bind_run.
    destruct (applyTokenTransfer ERC721HoldingModel tokenId from2 to2 w0)
      as [[[]|e] w1]; reflexivity.
Qed.

(** ** The decode chain *)

(** C4: the chain of nested [try]/[catch] is the search, in the fixed
    priority order, for the first shape whose parse does not throw; a
    log that parses as [TicketMinted] is classified [TicketMinted]; a
    log on which the six parses throw is unrecognized, and the loop
    body skips it and leaves the world as it is; and no exception
    leaves the body of the loop over the logs, whatever the log. *)
Theorem decode_chain_priority input :
  decodeChain parseLog input = firstAccepted parseLog priorityOrder input /\
  (forall args,
     parseLog TicketMinted input = Parsed args ->
     decodeChain parseLog input = Some (Some args, Some TicketMinted)) /\
  ((forall e, parseLog e input = Threw) -> decodeChain parseLog input = None) /\
  (forall now h a721 a404 log w,
     input = mkLogInput (lg_data log) (topicsOf log) ->
     (forall e, parseLog e input = Threw) ->
     logBody parseLog now h a721 a404 log tt w = (Returned tt, w)) /\
  (forall now h a721 a404 log w,
     exists w', logBody parseLog now h a721 a404 log tt w = (Returned tt, w')).
Proof.
  assert ((forall e, parseLog e input = Threw) -> decodeChain parseLog input = None)
    as AllThrow.
  { intro H. unfold decodeChain, tryParse. now rewrite !H. }
  split; [|split; [|split; [|split]]].
  - reflexivity.
  - intros args H. unfold decodeChain, tryParse. now rewrite H.
  - exact AllThrow.
  - intros now h a721 a404 log w -> H.
    unfold logBody, tryCatch, processLog.
    destruct (negb _); [reflexivity|].
    destruct (lg_address log) as [address|]; [|reflexivity].
    simpl. rewrite bind_run. simpl.
    destruct (if String.eqb _ _ then _ else _); [|reflexivity].
    now rewrite (AllThrow H).
  - intros now h a721 a404 log w. unfold logBody, tryCatch.
    destruct (processLog _ _ _ _ _ _ w) as [[[]|e] w']; eauto.
Qed.

(** ** The minting life cycle *)

Lemma logBody_decoded now h a721 a404 log args e w :
  tracked a721 a404 log ->
  decodeChain parseLog (mkLogInput (lg_data log) (topicsOf log)) =
    Some (Some args, Some e) ->
  exists tokenType,
    logBody parseLog now h a721 a404 log tt w =
    tryCatch (onEvent now h tokenType e args) w.
Proof.
  intros (T & address & A & C) D. unfold logBody, tryCatch, processLog.
  rewrite T, A. simpl. rewrite bind_run. simpl. rewrite D.
  destruct (String.eqb (Js.toLowerCase address) (Js.toLowerCase a721)) eqn:E1.
  - now exists ERC721.
  - destruct (String.eqb (Js.toLowerCase address) (Js.toLowerCase a404)) eqn:E2.
    + now exists ERC404.
    + apply String.eqb_neq in E1, E2. tauto.
Qed.


Lemma toNumber_fits n : (n < 2 ^ 53)%N -> Js.toNumber n = Some (Z.of_N n).
Proof. intro H. unfold Js.toNumber. apply N.ltb_lt in H. now rewrite H. Qed.

(** The loop that pushes the decoded levels. *)
Lemma push_levels levels acc w :
  Forall fits levels ->
  forOf
    (fun level acc =>
       rollNumber <- orThrow NumericFault (Js.toNumber (lv_rollNumber level)) ;;
       ret (acc ++ [mkLevelDoc (Js.toString (Z.of_N (lv_winAmount level))) rollNumber]))
    levels acc w =
  (Returned (acc ++ map levelDoc levels), w).
Proof.
  intro F. revert acc. induction F as [|l r Hl Hr IH]; intro acc; simpl.
  - now rewrite app_nil_r.
  - rewrite bind_run, bind_run, (toNumber_fits _ Hl). simpl.
    rewrite IH, <- app_assoc. reflexivity.
Qed.

(** [mintingDetails.save()] on the document found for its tokenId, or
    on a new one when none was found. *)
Lemma minting_save_run d w :
  (findOne md_tokenId (md_tokenId d) (MintingDetails w) = None ->
   Js.nonEmpty (md_tokenId d) = true /\ Js.nonEmpty (md_transactionHash d) = true) ->
  exists docs,
    MintingDetails_save
      match findOne md_tokenId (md_tokenId d) (MintingDetails w) with
      | Some _ => false
      | None => true
      end d w =
    (Returned tt,
     setJournal (journal w ++ [Saved MintingDetailsM (md_tokenId d)])
       (setMintingDetails docs w)) /\
    findOne md_tokenId (md_tokenId d) docs = Some d /\
    (uniqueKeys md_tokenId (MintingDetails w) -> uniqueKeys md_tokenId docs).
Proof.
  intro New. unfold MintingDetails_save.
  destruct (findOne md_tokenId (md_tokenId d) (MintingDetails w)) as [x|] eqn:F.
  - exists (replaceOne md_tokenId d (MintingDetails w)). split; [reflexivity|].
    split; [|apply uniqueKeys_replaceOne].
    eapply findOne_replaceOne; eauto.
  - destruct (New eq_refl) as [N1 N2]. rewrite N1, N2. simpl.
    exists (MintingDetails w ++ [d]).
    unfold bind, get, insertUnique, modify, record. simpl.
    rewrite (findOne_None_existsb _ _ _ F). simpl.
    split; [reflexivity|]. split; [now apply findOne_app_new|].
    intro U. eapply uniqueKeys_insertUnique; [exact U|].
    unfold insertUnique. now rewrite (findOne_None_existsb _ _ _ F).
Qed.




End Properties.

(** ** The properties on sample payloads *)

Lemma confirmed_payload_is_skipped_witness :
  confirmed confirmedBody = true /\
  webhook sampleParseLog 1 confirmedBody gallery =
  (mkResponse 200 "Skipped confirmed transaction", gallery).
Proof.
  split; [reflexivity|].
  apply (confirmed_payload_is_skipped sampleParseLog 1 confirmedBody gallery).
  reflexivity.
Defined.

Lemma no_transaction_hash_is_skipped_witness :
  confirmed logsOnlyBody = false /\
  Js.truthy (firstTransactionHash logsOnlyBody) = false /\
  webhook sampleParseLog 1 logsOnlyBody gallery =
  (mkResponse 200 "No transaction hash found", gallery).
Proof.
  split; [reflexivity|]. split; [reflexivity|].
  apply (no_transaction_hash_is_skipped sampleParseLog 1 logsOnlyBody gallery);
    reflexivity.
Defined.

Lemma webhook_always_200_witness :
  let w' := snd (webhookBody sampleParseLog 1 failingBody emptyWorld) in
  webhookBody sampleParseLog 1 failingBody emptyWorld = (Thrown SyntaxError, w') /\
  webhook sampleParseLog 1 failingBody emptyWorld =
  (mkResponse 200 "Error occurred but returning 200 to prevent retries", w').
Proof.
  intro w'.
  assert (webhookBody sampleParseLog 1 failingBody emptyWorld = (Thrown SyntaxError, w'))
    as H by (vm_compute; reflexivity).
  split; [exact H|].
  exact (proj2 (webhook_always_200 sampleParseLog 1 failingBody emptyWorld)
           SyntaxError w' H).
Defined.

Lemma redelivery_after_success_witness :
  let run := webhook sampleParseLog 1 mintBody emptyWorld in
  message (fst run) = "Holdings updated successfully" /\
  exists h,
    firstTransactionHash mintBody = Some h /\
    countKey tx_transactionHash h (ProcessedTransaction emptyWorld) = 0%nat /\
    countKey tx_transactionHash h (ProcessedTransaction (snd run)) = 1%nat /\
    webhook sampleParseLog 2 mintBody (snd run) =
    (mkResponse 200 "Transaction already processed", snd run) /\
    (forall w2 d,
       findOne tx_transactionHash h (ProcessedTransaction w2) = Some d ->
       webhook sampleParseLog 2 mintBody w2 =
       (mkResponse 200 "Transaction already processed", w2)).
Proof.
  intro run.
  assert (message (fst run) = "Holdings updated successfully") as H
    by (vm_compute; reflexivity).
  split; [exact H|].
  apply (redelivery_after_success sampleParseLog 1 2 mintBody emptyWorld
           (fst run) (snd run)); [apply surjective_pairing|exact H].
Defined.

Lemma notified_before_marked_witness :
  let run := webhook sampleParseLog 1 mintBody emptyWorld in
  message (fst run) = "Holdings updated successfully" /\
  exists h d,
    firstTransactionHash mintBody = Some h /\
    findOne tx_transactionHash h (ProcessedTransaction emptyWorld) = None /\
    journal (snd run) = journal emptyWorld ++ d ++ [Created ProcessedTransactionM h] /\
    Forall notMark d /\
    (forall client f, In (Sent client f) (d ++ [Created ProcessedTransactionM h]) ->
       In (Sent client f) d).
Proof.
  intro run.
  assert (message (fst run) = "Holdings updated successfully") as H
    by (vm_compute; reflexivity).
  split; [exact H|].
  apply (notified_before_marked sampleParseLog 1 mintBody emptyWorld
           (fst run) (snd run)); [apply surjective_pairing|exact H].
Defined.

Lemma balance_round_trip_witness :
  let w1 := snd (updateERC404FungibleBalance bobAddress "12345678901234567890" true ledger) in
  let w2 := snd (updateERC404FungibleBalance bobAddress "12345678901234567890" false w1) in
  fungibleBalance bobAddress ledger = Js.toString (10 ^ 29) /\
  fungibleBalance bobAddress w2 = fungibleBalance bobAddress ledger /\
  fungibleBalance bobAddress w1 = Js.toString (10 ^ 29 + 12345678901234567890).
Proof.
  intros w1 w2.
  assert (fungibleBalance bobAddress ledger = Js.toString (10 ^ 29)) as H
    by (vm_compute; reflexivity).
  destruct (balance_round_trip bobAddress "12345678901234567890" ledger
              (ex_intro _ (10 ^ 29) H)) as [Back Forth].
  split; [exact H|]. split; [exact Back|].
  apply (Forth (10 ^ 29) 12345678901234567890 H); reflexivity.
Defined.

Lemma nft_transfer_single_owner_witness :
  let t := nftEntry erc721Sample "7" alice bob in
  let w' := snd (nftTransferBody erc721Sample erc404Sample t [] gallery) in
  uniqueKeys hd_tokenId (ERC721Holding gallery) /\
  uniqueKeys hd_tokenId (ERC404NFT gallery) /\
  uniqueKeys hd_tokenId (ERC721Holding w') /\
  ERC721Holding w' = [mkHolding "7" bobAddress] /\
  countKey hd_tokenId "7" (ERC721Holding w') = 1%nat.
Proof.
  intros t w'.
  assert (uniqueKeys hd_tokenId (ERC721Holding gallery)) as U1.
  { unfold uniqueKeys. simpl. repeat constructor. intros []. }
  assert (uniqueKeys hd_tokenId (ERC404NFT gallery)) as U2 by constructor.
  destruct (nft_transfer_single_owner erc721Sample erc404Sample t [] gallery U1 U2)
    as [[K1 K2] Applied].
  assert (wellFormed t erc721Sample "7" alice bob) as WF
    by (repeat split; reflexivity).
  assert (alice <> zeroAddress) as NZ by (apply String.eqb_neq; reflexivity).
  destruct (Applied ERC721HoldingModel erc721Sample "7" alice bob WF
              eq_refl eq_refl NZ) as (_ & Store & Count & _).
  repeat split; try assumption.
Defined.

Lemma duplicate_tokenId_suppression_witness :
  let first404 := nftEntry erc404Sample "5" alice bob in
  let first721 := nftEntry erc721Sample "5" alice carol in
  let second721 := nftEntry erc721Sample "5" carol bob in
  forOf (nftTransferBody erc721Sample erc404Sample)
        [first404; second721] [] emptyWorld =
  forOf (nftTransferBody erc721Sample erc404Sample) [first404] [] emptyWorld /\
  forOf (nftTransferBody erc721Sample erc404Sample)
        [first721; second721] [] emptyWorld =
  (processed' <- forOf (nftTransferBody erc721Sample erc404Sample)
                       [first721] [] ;;
   applyTokenTransfer ERC721HoldingModel "5" carol bob ;;
   ret processed')%js emptyWorld.
Proof.
  intros first404 first721 second721.
  assert (wellFormed first404 erc404Sample "5" alice bob) as W1
    by (repeat split; reflexivity).
  assert (wellFormed first721 erc721Sample "5" alice carol) as W2
    by (repeat split; reflexivity).
  assert (wellFormed second721 erc721Sample "5" carol bob) as W3
    by (repeat split; reflexivity).
  assert (Forall (fun t => ~ onERC404With erc721Sample erc404Sample "5" t)
                 [first721]) as NoErc404.
  { repeat constructor. intros (c & Hc & Hk & _).
    injection Hc as <-. discriminate Hk. }
  split.
  - exact (proj1 (duplicate_tokenId_suppression erc721Sample erc404Sample
                    first404 second721 _ _ _ _ _ _ _ W1 W3)
             eq_refl [] [] [] [] emptyWorld).
  - exact (proj2 (duplicate_tokenId_suppression erc721Sample erc404Sample
                    first721 second721 _ _ _ _ _ _ _ W2 W3)
             eq_refl [first721] [] emptyWorld eq_refl NoErc404).
Defined.

Lemma decode_chain_priority_witness :
  (forall e, sampleParseLog e (inputOf unknownLog) = Threw) /\
  decodeChain sampleParseLog (inputOf unknownLog) = None /\
  logBody sampleParseLog 1 "0xabc" erc721Sample erc404Sample unknownLog tt gallery =
    (Returned tt, gallery) /\
  sampleParseLog TicketMinted (inputOf mintedLog) =
    Parsed (TicketMintedArgs alice 7 true [mkLevel 3 50 3000]) /\
  decodeChain sampleParseLog (inputOf mintedLog) =
    Some (Some (TicketMintedArgs alice 7 true [mkLevel 3 50 3000]), Some TicketMinted).
Proof.
  assert (forall e, sampleParseLog e (inputOf unknownLog) = Threw) as AllThrow
    by (intros []; reflexivity).
  destruct (decode_chain_priority sampleParseLog (inputOf unknownLog))
    as (_ & _ & Unrecognized & Skipped & _).
  destruct (decode_chain_priority sampleParseLog (inputOf mintedLog))
    as (_ & Minted & _).
  split; [exact AllThrow|]. split; [exact (Unrecognized AllThrow)|].
  split; [exact (Skipped 1%nat "0xabc" erc721Sample erc404Sample unknownLog gallery
                   eq_refl AllThrow)|].
  split; [reflexivity|]. apply Minted. reflexivity.
Defined.


(** ** Where the stated properties fail *)

(** C1 as stated fails on [failingBody]: the hash was never seen, the
    first processing throws after the mint of 5 units was applied, no
    record is created, and the second processing applies the mint
    again. *)
Lemma redelivery_counterexample :
  let w1 := snd (webhook sampleParseLog 1 failingBody emptyWorld) in
  let w2 := snd (webhook sampleParseLog 2 failingBody w1) in
  firstTransactionHash failingBody = Some "0xabc" /\
  findOne tx_transactionHash "0xabc" (ProcessedTransaction emptyWorld) = None /\
  fungibleBalance bobAddress w1 = "5" /\
  fungibleBalance bobAddress w2 = "10" /\
  fungibleBalance bobAddress w2 <> fungibleBalance bobAddress w1 /\
  countKey tx_transactionHash "0xabc" (ProcessedTransaction w2) <> 1%nat.
Proof.
  vm_compute. repeat split; discriminate.
Defined.

(** C6 as stated fails on [mixedBody]: after the transfer of token 5
    on the ERC404 contract, the two transfers of token 5 on the ERC721
    contract are both skipped, and the ERC721 collection stays
    empty. *)
Lemma duplicate_tokenId_counterexample :
  let run := webhook sampleParseLog 1 mixedBody emptyWorld in
  message (fst run) = "Holdings updated successfully" /\
  ERC721Holding (snd run) = [] /\
  ERC404NFT (snd run) = [mkHolding "5" bobAddress] /\
  journal (snd run) =
    [FoundAndDeleted ERC404NFTM "5"; Created ERC404NFTM "5";
     Created ProcessedTransactionM "0xabc"] /\
  ERC721Holding
    (snd ((applyTokenTransfer ERC721HoldingModel "5" alice carol ;;
           applyTokenTransfer ERC721HoldingModel "5" carol bob)%js (snd run))) =
    [mkHolding "5" bobAddress] /\
  forOf (nftTransferBody erc721Sample erc404Sample)
        [nftEntry erc404Sample "5" alice bob;
         nftEntry erc721Sample "5" alice carol;
         nftEntry erc721Sample "5" carol bob] [] emptyWorld =
  forOf (nftTransferBody erc721Sample erc404Sample)
        [nftEntry erc404Sample "5" alice bob] [] emptyWorld.
Proof.
  vm_compute. repeat split.
Defined.

(** C8 as stated fails on [mintBody]: the frame of the [TicketMinted]
    log is sent to the open client before the record of the
    transaction is created. *)
Lemma notified_before_marked_counterexample :
  let run := webhook sampleParseLog 1 mintBody emptyWorld in
  message (fst run) = "Holdings updated successfully" /\
  journal (snd run) =
    [Saved ERC404FungibleM bobAddress; Saved MintingDetailsM "7";
     Sent 0 mintedFrame; Created ProcessedTransactionM "0xabc"] /\
  ~ markedBeforeNotified "0xabc" (journal (snd run)).
Proof.
  intro run.
  assert (journal (snd run) =
          [Saved ERC404FungibleM bobAddress; Saved MintingDetailsM "7";
           Sent 0 mintedFrame; Created ProcessedTransactionM "0xabc"]) as J
    by (vm_compute; reflexivity).
  split; [vm_compute; reflexivity|]. split; [exact J|].
  intro H.
  specialize (H [Saved ERC404FungibleM bobAddress; Saved MintingDetailsM "7"]
                0%nat mintedFrame [Created ProcessedTransactionM "0xabc"] J).
  destruct H as [H|[H|[]]]; discriminate H.
Defined.

(** ** Sanity checks of the JavaScript primitives *)

Example BigInt_examples :
  Js.BigInt "42" = Some 42 /\ Js.BigInt " -007 " = Some (-7) /\
  Js.BigInt "0x1f" = Some 31 /\ Js.BigInt "" = Some 0 /\
  Js.BigInt "1.5" = None /\ Js.BigInt "-0x1" = None /\
  Js.BigInt "+" = None /\ Js.BigInt "0b102" = None /\
  Js.BigInt "1e3" = None /\ Js.BigInt "+15" = Some 15.
Proof. repeat split; reflexivity. Qed.

Example toString_examples :
  Js.toString (-120) = "-120" /\ Js.toString 0 = "0" /\
  Js.toString (2 ^ 64) = "18446744073709551616" /\
  Js.toNumber (2 ^ 53 - 1) = Some 9007199254740991 /\
  Js.toNumber (2 ^ 53) = None /\
  Js.toLowerCase "0xE64Ea2" = "0xe64ea2".
Proof. repeat split; reflexivity. Qed.

(** A [RewardPaid] log after a resolution overwrites the roll result
    with 0 and the payout with the amount paid. *)
Example rewardPaid_overwrites :
  let paid :=
    mkLog (Some erc721Sample) (Some "9") (Some "RewardPaid") (Some alice)
          (Some "7") None in
  let w1 := snd (logBody sampleParseLog 1 "0xabc" erc721Sample erc404Sample
                   resolvedLog tt emptyWorld) in
  let w2 := snd (logBody sampleParseLog 2 "0xabc" erc721Sample erc404Sample
                   paid tt w1) in
  MintingDetails w1 = [mkMintingDetails "7" [] (Some 2) (Some "2000") 1 "0xabc"] /\
  MintingDetails w2 = [mkMintingDetails "7" [] (Some 0) (Some "9") 1 "0xabc"].
Proof. vm_compute. split; reflexivity. Qed.

(** * Further properties *)

(** ** Lower case, distinct values, sorting *)

Lemma lowerChar_idem c : Js.lowerChar (Js.lowerChar c) = Js.lowerChar c.
Proof. destruct c as [[] [] [] [] [] [] [] []]; reflexivity. Qed.

Lemma toLowerCase_idem s : Js.toLowerCase (Js.toLowerCase s) = Js.toLowerCase s.
Proof. induction s as [|c r IH]; simpl; [reflexivity|]. now rewrite lowerChar_idem, IH. Qed.

Lemma In_distinct x l : In x (distinct l) <-> In x l.
Proof.
  induction l as [|y r IH]; simpl; [tauto|].
  rewrite filter_In, IH. destruct (String.eqb_spec x y) as [->|N]; simpl.
  - tauto.
  - split; [intros [E|[H _]]; [now left|now right]|].
    intros [E|H]; [now left|right; now split].
Qed.

Lemma NoDup_distinct l : NoDup (distinct l).
Proof.
  induction l as [|y r IH]; simpl; constructor.
  - rewrite filter_In, String.eqb_refl. intros [_ H]. discriminate H.
  - now apply NoDup_filter.
Qed.

Lemma inValues_In x l : inValues x l = true <-> In x l.
Proof.
  unfold inValues. rewrite existsb_exists. split.
  - intros (y & H & E). apply String.eqb_eq in E. now subst.
  - intro H. exists x. split; [assumption|apply String.eqb_refl].
Qed.

Section Sorting.
Context {D : Type} (timestamp : D -> nat).

Lemma insertDesc_perm d l : Permutation (insertDesc timestamp d l) (d :: l).
Proof.
  induction l as [|x r IH]; simpl; [reflexivity|].
  destruct (Nat.leb (timestamp x) (timestamp d)); [reflexivity|].
  rewrite IH. apply perm_swap.
Qed.

Lemma sortDesc_perm l : Permutation (sortDesc timestamp l) l.
Proof.
  induction l as [|d r IH]; simpl; [reflexivity|].
  rewrite insertDesc_perm. now constructor.
Qed.

Lemma insertDesc_sorted d l :
  sortedDesc timestamp l -> sortedDesc timestamp (insertDesc timestamp d l).
Proof.
  unfold sortedDesc. induction l as [|x r IH]; simpl; intro S.
  - repeat constructor.
  - inversion S as [|? ? Sr Fx]; subst.
    destruct (Nat.leb (timestamp x) (timestamp d)) eqn:E.
    + apply Nat.leb_le in E. constructor; [assumption|].
      constructor; [assumption|].
      eapply Forall_impl; [|exact Fx]. simpl. intros a Ha. lia.
    + apply Nat.leb_gt in E. constructor; [auto|].
      eapply Permutation_Forall; [symmetry; apply insertDesc_perm|].
      constructor; [lia|assumption].
Qed.

Lemma sortDesc_sorted l : sortedDesc timestamp (sortDesc timestamp l).
Proof.
  induction l as [|d r IH]; simpl; [constructor|]. now apply insertDesc_sorted.
Qed.

Lemma In_sortDesc d l : In d (sortDesc timestamp l) <-> In d l.
Proof.
  split; apply Permutation_in; [|symmetry]; apply sortDesc_perm.
Qed.

End Sorting.

(** ** Holdings after a transfer *)

(** The collection of the class after an applied transfer that is not
    a mint, under the unique index. *)
Lemma nftTransferBody_store a721 a404 t processed w m contract tokenId from to :
  uniqueKeys hd_tokenId (holdings m w) ->
  wellFormed t contract tokenId from to ->
  transferClass a721 a404 contract = Some m ->
  member tokenId processed = false ->
  from <> zeroAddress ->
  holdings m (snd (nftTransferBody a721 a404 t processed w)) =
  filter (fun d => negb (hasKey hd_tokenId tokenId d)) (holdings m w)
  ++ [mkHolding tokenId (Js.toLowerCase to)].
Proof.
  intros U WF C P Z.
  rewrite (nftTransferBody_applied _ _ _ _ _ _ _ _ _ w WF C P), bind_run.
  destruct WF as (_ & _ & _ & _ & _ & Nt & _ & Nto).
  rewrite (applyTokenTransfer_run _ _ _ _ _ U Nt Nto Z). simpl.
  now destruct m.
Qed.

Lemma reported_spec m address w tokenId :
  In tokenId (reported m (getHoldings address w)) <->
  exists d, In d (holdings m w) /\ hd_owner d = Js.toLowerCase address /\
            hd_tokenId d = tokenId.
Proof.
  unfold getHoldings, findByOwner. destruct m; simpl; rewrite in_map_iff;
    (split; [intros (d & E & H); apply filter_In in H; destruct H as [H O];
              apply String.eqb_eq in O; eauto
            |intros (d & H & O & E); exists d; split; [assumption|];
              apply filter_In; split; [assumption|now apply String.eqb_eq]]).
Qed.

(** X1: After an applied transfer that is not a mint, [GET
    /holdings/:address] reports the token, in the list of its class,
    for the addresses that are [to] up to the case of their letters,
    and for no other address. *)
Theorem holdings_after_transfer
    a721 a404 t processed w m contract tokenId from to address :
  uniqueKeys hd_tokenId (holdings m w) ->
  wellFormed t contract tokenId from to ->
  transferClass a721 a404 contract = Some m ->
  member tokenId processed = false ->
  from <> zeroAddress ->
  let w' := snd (nftTransferBody a721 a404 t processed w) in
  In tokenId (reported m (getHoldings address w')) <->
  Js.toLowerCase address = Js.toLowerCase to.
Proof.
  intros U WF C P Z w'. rewrite reported_spec. subst w'.
  rewrite (nftTransferBody_store _ _ _ _ _ _ _ _ _ _ U WF C P Z). split.
  - intros (d & H & O & E). apply in_app_or in H. destruct H as [H|[<-|[]]].
    + apply filter_In in H. destruct H as [_ H].
      apply negb_true_iff, hasKey_false in H. contradiction.
    + simpl in O. now symmetry.
  - intro E. exists (mkHolding tokenId (Js.toLowerCase to)). split.
    + apply in_or_app. right. now left.
    + split; [now symmetry|reflexivity].
Qed.

(** ** Holders *)

Lemma nzhead_not_D0 u u' : Decimal.nzhead u <> Decimal.D0 u'.
Proof. induction u; simpl; try discriminate. exact IHu. Qed.

Lemma to_uint_head p u' : Pos.to_uint p <> Decimal.D0 u'.
Proof.
  intro E.
  pose proof (DecimalPos.Unsigned.to_of (Pos.to_uint p)) as T.
  rewrite DecimalPos.Unsigned.of_to in T. simpl in T.
  rewrite E in T. unfold Decimal.unorm in T. simpl in T.
  destruct (Decimal.nzhead u') eqn:N;
    try (injection T as T; rewrite <- T in N; now apply nzhead_not_D0 in N);
    try discriminate T.
  injection T as ->. apply (DecimalPos.Unsigned.to_uint_nonzero p). exact E.
Qed.

(** On numerals, the comparison of strings with ["0"] is the sign of
    the number. *)
Lemma gtString_toString z : gtString (Js.toString z) "0" = (0 <? z).
Proof.
  unfold Js.toString. destruct z as [|p|p]; try reflexivity.
  simpl Z.to_int. simpl NilZero.string_of_int. unfold NilZero.string_of_uint.
  pose proof (to_uint_head p) as H.
  pose proof (DecimalPos.Unsigned.to_uint_nonnil p) as N.
  destruct (Pos.to_uint p) as [|u|u|u|u|u|u|u|u|u|u]; try reflexivity.
  - contradiction.
  - now specialize (H u).
Qed.

(** X2: The holders of the fungible token are the documents whose balance
    is positive, when the balances are numerals: the query compares
    strings, and on numerals that comparison is the sign. *)
Theorem fungible_holders_are_positive w :
  Numerals w ->
  exists docs,
    getHolders "erc404-fungible" w = (200%nat, HoldersDocs docs) /\
    forall d,
      In d docs <->
      In d (ERC404Fungible w) /\ exists z, fb_balance d = Js.toString z /\ 0 < z.
Proof.
  intro Nw. eexists. split; [reflexivity|]. intro d. rewrite filter_In. split.
  - intros [H G]. split; [assumption|]. destruct (Nw d H) as [z E].
    exists z. split; [assumption|]. rewrite E, gtString_toString in G.
    now apply Z.ltb_lt.
  - intros [H (z & E & P)]. split; [assumption|].
    rewrite E, gtString_toString. now apply Z.ltb_lt.
Qed.

(** X3: The holders of either NFT class are the owners on record in the
    collection of that class, each once. *)
Theorem nft_holders_are_distinct_owners tokenType w :
  (tokenType = "erc404-nft" \/ tokenType = "erc721") ->
  let docs := if String.eqb tokenType "erc721" then ERC721Holding w else ERC404NFT w in
  exists owners,
    getHolders tokenType w = (200%nat, HoldersOwners owners) /\
    NoDup owners /\
    forall o, In o owners <-> exists d, In d docs /\ hd_owner d = o.
Proof.
  intros [-> | ->]; simpl; eexists; (split; [reflexivity|]);
    (split; [apply NoDup_distinct|]); intro o;
    rewrite In_distinct, in_map_iff; split; intros (d & H1 & H2); eauto.
Qed.

(** ** Openings *)

(** X4: [GET /openings/:tokenId] answers the openings of the token, all of
    them and as many times as they are on record, latest first. *)
Theorem openings_of_token tokenId w :
  Permutation (getOpenings tokenId w)
    (filter (fun d => String.eqb (op_tokenId d) tokenId) (Opening w)) /\
  sortedDesc op_timestamp (getOpenings tokenId w) /\
  forall d, In d (getOpenings tokenId w) <-> In d (Opening w) /\ op_tokenId d = tokenId.
Proof.
  unfold getOpenings. split; [apply sortDesc_perm|]. split; [apply sortDesc_sorted|].
  intro d. rewrite In_sortDesc, filter_In. now rewrite String.eqb_eq.
Qed.

(** X5: [GET /address/:address/openings] answers, latest first, the
    openings of the tokens that a holdings record of either class
    gives to the address as it is written in the request. *)
Theorem openings_of_address address w :
  sortedDesc op_timestamp (getAddressOpenings address w) /\
  forall d,
    In d (getAddressOpenings address w) <->
    In d (Opening w) /\
    exists h, (In h (ERC721Holding w) \/ In h (ERC404NFT w)) /\
              hd_owner h = address /\ hd_tokenId h = op_tokenId d.
Proof.
  unfold getAddressOpenings. split; [apply sortDesc_sorted|].
  intro d. rewrite In_sortDesc, filter_In, orb_true_iff, !inValues_In, !In_distinct.
  unfold findByOwner. rewrite !in_map_iff. split.
  - intros [H [(h & E & F)|(h & E & F)]]; (split; [assumption|]);
      apply filter_In in F; destruct F as [F O]; apply String.eqb_eq in O;
      exists h; auto.
  - intros [H (h & [F|F] & O & E)]; (split; [assumption|]); [left|right];
      exists h; (split; [assumption|]); apply filter_In;
      (split; [assumption|now apply String.eqb_eq]).
Qed.

(** ** The push channel *)

Lemma sendToOpen_spec n clients f0 i f :
  In (Sent i f) (sendToOpen n clients f0) <->
  f = f0 /\ (n <= i)%nat /\ nth_error clients (i - n) = Some OPEN.
Proof.
  revert n. induction clients as [|c r IH]; intro n; simpl.
  - split; [tauto|]. intros (_ & _ & H). now destruct (i - n)%nat.
  - assert (In (Sent i f) (sendToOpen (S n) r f0) <->
            f = f0 /\ (n < i)%nat /\ nth_error (c :: r) (i - n) = Some OPEN) as Tail.
    { rewrite IH. split.
      - intros (E & L & H). repeat split; [assumption|lia|].
        replace (i - n)%nat with (S (i - S n)) by lia. exact H.
      - intros (E & L & H). repeat split; [assumption|lia|].
        replace (i - n)%nat with (S (i - S n)) in H by lia. exact H. }
    assert (forall X : Prop,
              (X <-> f = f0 /\ (n < i)%nat /\ nth_error (c :: r) (i - n) = Some OPEN) ->
              c <> OPEN ->
              (X <-> f = f0 /\ (n <= i)%nat /\ nth_error (c :: r) (i - n) = Some OPEN))
      as Closed.
    { intros X HX NO. rewrite HX. split; intros (E & L & H); repeat split;
        try assumption; try lia.
      destruct (Nat.eq_dec n i) as [->|]; [|lia].
      rewrite Nat.sub_diag in H. simpl in H. congruence. }
    destruct c; try (apply Closed; [exact Tail|discriminate]).
    simpl. rewrite Tail. split.
    + intros [[= <- <-]|(E & L & H)].
      * rewrite Nat.sub_diag. now repeat split.
      * repeat split; [assumption|lia|assumption].
    + intros (E & L & H). destruct (Nat.eq_dec n i) as [<-|N].
      * left. now subst.
      * right. repeat split; [assumption|lia|assumption].
Qed.

Lemma sendToOpen_length n clients f :
  List.length (sendToOpen n clients f) = openCount clients.
Proof.
  unfold openCount. revert n. induction clients as [|c r IH]; intro n; simpl;
    [reflexivity|]. destruct c; simpl; now rewrite IH.
Qed.

(** X6: [broadcastUpdate] never throws and writes to no collection; it
    hands the frame to the sockets that are open and to no other, one
    frame each. *)
Theorem broadcast_reaches_open_clients type tokenId w :
  exists sent,
    broadcastUpdate type tokenId w =
      (Returned tt, setJournal (journal w ++ sent) w) /\
    List.length sent = openCount (wssClients w) /\
    forall e,
      In e sent <->
      exists i, e = Sent i (mkFrame type tokenId) /\
                nth_error (wssClients w) i = Some OPEN.
Proof.
  exists (sendToOpen 0 (wssClients w) (mkFrame type tokenId)).
  split; [reflexivity|]. split; [apply sendToOpen_length|].
  assert (forall n cs f e, In e (sendToOpen n cs f) -> exists i g, e = Sent i g) as Shape.
  { intros n cs f e. revert n. induction cs as [|c r IH]; intro n; simpl; [tauto|].
    destruct c; try apply IH. intros [<-|H]; [eauto|eapply IH; eauto]. }
  intro e. split.
  - intro H. destruct (Shape _ _ _ _ H) as (i & g & ->).
    apply sendToOpen_spec in H. destruct H as (-> & _ & H).
    rewrite Nat.sub_0_r in H. eauto.
  - intros (i & -> & H). apply sendToOpen_spec.
    rewrite Nat.sub_0_r. repeat split; [lia|assumption].
Qed.

(** ** What the holdings lists look like under the index *)

Lemma NoDup_map_filter {D} (key : D -> string) (f : D -> bool) docs :
  NoDup (map key docs) -> NoDup (map key (filter f docs)).
Proof.
  induction docs as [|x r IH]; simpl; [auto|].
  intro H. inversion H as [|? ? Hx Hr]; subst.
  destruct (f x); simpl; [|auto]. constructor; [|auto].
  intro E. apply Hx. apply in_map_iff in E. destruct E as (d & K & F).
  apply filter_In in F. apply in_map_iff. exists d. tauto.
Qed.

Lemma unique_key_same_doc {D} (key : D -> string) docs a b :
  NoDup (map key docs) -> In a docs -> In b docs -> key a = key b -> a = b.
Proof.
  induction docs as [|x r IH]; simpl; [tauto|].
  intro H. inversion H as [|? ? Hx Hr]; subst.
  intros [<-|Ha] [<-|Hb] E; auto.
  - exfalso. apply Hx. rewrite E. now apply in_map.
  - exfalso. apply Hx. rewrite <- E. now apply in_map.
Qed.

(** X7: Under the unique index, [GET /holdings/:address] lists no token
    twice, and a token listed in a class for two addresses is listed
    for one owner: the two addresses differ by the case of their
    letters at most. *)
Theorem holdings_are_exclusive m w :
  uniqueKeys hd_tokenId (holdings m w) ->
  (forall address, NoDup (reported m (getHoldings address w))) /\
  (forall a b tokenId,
     In tokenId (reported m (getHoldings a w)) ->
     In tokenId (reported m (getHoldings b w)) ->
     Js.toLowerCase a = Js.toLowerCase b).
Proof.
  intro U. split.
  - intro address. unfold getHoldings, findByOwner.
    destruct m; simpl; now apply NoDup_map_filter.
  - intros a b tokenId Ha Hb. apply reported_spec in Ha, Hb.
    destruct Ha as (d & Id & Od & Kd), Hb as (e & Ie & Oe & Ke).
    assert (d = e) by (eapply unique_key_same_doc; eauto; congruence).
    subst e. congruence.
Qed.

(** X8: An address that no document mentions has the default holdings:
    balance ["0"] and no token. *)
Theorem holdings_of_unknown_address address w :
  (forall d, In d (ERC404Fungible w) -> fb_address d <> Js.toLowerCase address) ->
  (forall d, In d (ERC404NFT w) -> hd_owner d <> Js.toLowerCase address) ->
  (forall d, In d (ERC721Holding w) -> hd_owner d <> Js.toLowerCase address) ->
  getHoldings address w = mkHoldingsBody "0" [] [].
Proof.
  intros HF H404 H721. unfold getHoldings, fungibleBalance, findByOwner.
  assert (forall docs,
            (forall d, In d docs -> hd_owner d <> Js.toLowerCase address) ->
            filter (fun d => String.eqb (hd_owner d) (Js.toLowerCase address)) docs = [])
    as None_owned.
  { induction docs as [|x r IH]; simpl; [reflexivity|]. intro H.
    destruct (String.eqb_spec (hd_owner x) (Js.toLowerCase address)) as [E|_].
    - exfalso. apply (H x); auto.
    - apply IH. intros d Hd. apply H. now right. }
  rewrite (None_owned _ H404), (None_owned _ H721).
  destruct (findOne fb_address (Js.toLowerCase address) (ERC404Fungible w)) eqn:F;
    [|reflexivity].
  exfalso. apply (HF f); [eapply findOne_In; eauto|eapply findOne_key; eauto].
Qed.

(** ** Errors while a log is processed *)

#[export] Instance Unchanged_frame : FrameRel Unchanged.
Proof. split; unfold Unchanged; [reflexivity|intros; congruence]. Qed.

Lemma atomic_pure {A} (m : M A) : Keeps Unchanged m -> Atomic m.
Proof. intros P w e w' H. specialize (P w). rewrite H in P. exact P. Qed.


Lemma atomic_bind_pure {A B} (m : M A) (k : A -> M B) :
  Keeps Unchanged m -> (forall a, Atomic (k a)) -> Atomic (bind m k).
Proof.
  intros P K w e w'. unfold bind. specialize (P w).
  destruct (m w) as [[a|x] w1]; unfold Unchanged in P; simpl in P; subst w1.
  - apply K.
  - now intros [= _ <-].
Qed.

Lemma atomic_bind_nothrow {A B} (m : M A) (k : A -> M B) :
  Atomic m -> (forall a, NoThrow (k a)) -> Atomic (bind m k).
Proof.
  intros Hm K w e w'. unfold bind.
  destruct (m w) as [[a|x] w1] eqn:E.
  - destruct (K a w1) as (b & w2 & R). rewrite R. discriminate.
  - intros [= _ <-]. eapply Hm; eauto.
Qed.

Lemma nothrow_record e : NoThrow (record e).
Proof. intro w. eexists. eexists. reflexivity. Qed.

Lemma nothrow_broadcast ty k : NoThrow (broadcastUpdate ty k).
Proof. intro w. eexists. eexists. reflexivity. Qed.

Lemma atomic_minting_save isNew d : Atomic (MintingDetails_save isNew d).
Proof.
  unfold MintingDetails_save. apply atomic_bind_nothrow; [|intro; apply nothrow_record].
  intros w e w'. destruct isNew; [|discriminate].
  destruct (negb _); [now intros [= _ <-]|].
  unfold bind, get. destruct (insertUnique _ _ _); [discriminate|now intros [= _ <-]].
Qed.

Lemma atomic_opening_create d : Atomic (Opening_create d).
Proof.
  unfold Opening_create. intros w e w'.
  destruct (negb _); [now intros [= _ <-]|discriminate].
Qed.

Lemma atomic_onEvent now h tokenType e args : Atomic (onEvent now h tokenType e args).
Proof.
  assert (forall isNew d ty k,
            Atomic (MintingDetails_save isNew d ;; broadcastUpdate ty k)) as Save.
  { intros. apply atomic_bind_nothrow;
      [apply atomic_minting_save|intro; apply nothrow_broadcast]. }
  destruct e; simpl;
    unfold onTicketMinted, onTicketOpeningInitiated, onResolvedOrPaid;
    repeat (apply atomic_bind_pure; [solve [keeps]|intros]);
    try apply Save; try apply atomic_opening_create;
    try (apply atomic_pure; solve [keeps]).
Qed.

Section LogErrors.
Variable parseLog : EventName -> LogInput -> ParseResult.

Lemma atomic_processLog now h a721 a404 log :
  Atomic (processLog parseLog now h a721 a404 log).
Proof.
  unfold processLog. destruct (negb _); [apply atomic_pure; keeps|].
  apply atomic_bind_pure; [keeps|]. intro address. cbv zeta.
  destruct (if String.eqb _ _ then _ else _); [|apply atomic_pure; keeps].
  destruct (decodeChain _ _) as [[[args|] [e|]]|];
    try (apply atomic_pure; solve [keeps]).
  apply atomic_onEvent.
Qed.

(** X9: A log whose processing throws leaves no trace: every statement
    that can throw comes before the one write of its branch, so the
    world is as it was, and the loop goes on to the next log. *)
Theorem failed_log_leaves_no_trace now h a721 a404 log w e w' :
  processLog parseLog now h a721 a404 log w = (Thrown e, w') ->
  w' = w /\ logBody parseLog now h a721 a404 log tt w = (Returned tt, w).
Proof.
  intro H. pose proof (atomic_processLog now h a721 a404 log w e w' H) as ->.
  split; [reflexivity|]. unfold logBody, tryCatch. now rewrite H.
Qed.

(** X10: A log without an event signature, without an address, or from an
    address that is neither contract is skipped whatever the
    interfaces make of it: the world is as it was. *)
Theorem untracked_log_is_skipped now h a721 a404 log w :
  (Js.truthy (lg_topic0 log) = false \/
   lg_address log = None \/
   exists address,
     lg_address log = Some address /\
     Js.toLowerCase address <> Js.toLowerCase a721 /\
     Js.toLowerCase address <> Js.toLowerCase a404) ->
  logBody parseLog now h a721 a404 log tt w = (Returned tt, w).
Proof.
  unfold logBody, tryCatch, processLog.
  destruct (Js.truthy (lg_topic0 log)); simpl; [|reflexivity].
  intros [H|[H|(address & H & N1 & N2)]]; [discriminate| |]; rewrite H; simpl;
    [reflexivity|].
  rewrite bind_run. simpl.
  apply String.eqb_neq in N1, N2. now rewrite N1, N2.
Qed.

End LogErrors.

(** ** Invariants of the handler *)

#[export] Instance Preserves_frame (Inv : World -> Prop) : FrameRel (Preserves Inv).
Proof. split; unfold Preserves; auto. Qed.

#[export] Instance OpeningsGrow_frame : FrameRel OpeningsGrow.
Proof.
  split; unfold OpeningsGrow.
  - intro w. exists []. now rewrite app_nil_r.
  - intros a b c [x Hx] [y Hy]. exists (x ++ y). now rewrite Hy, Hx, app_assoc.
Qed.

Section HandlerFrame.
Variable parseLog : EventName -> LogInput -> ParseResult.
Context (R : World -> World -> Prop) `{FrameRel R}.

Hypothesis R_delete : forall m k, Keeps R (Holding_findOneAndDelete m k).
Hypothesis R_create :
  forall m k to, Keeps R (Holding_create m (mkHolding k (Js.toLowerCase to))).
Hypothesis R_update : forall a v b, Keeps R (updateERC404FungibleBalance a v b).
Hypothesis R_save : forall isNew d, Keeps R (MintingDetails_save isNew d).
Hypothesis R_opening : forall d, Keeps R (Opening_create d).
Hypothesis R_broadcast : forall ty k, Keeps R (broadcastUpdate ty k).
Hypothesis R_mark : forall now h, Keeps R (ProcessedTransaction_create now h).

Lemma frame_nftTransferBody a b t s : Keeps R (nftTransferBody a b t s).
Proof. unfold nftTransferBody. keeps. Qed.

Lemma frame_erc20TransferBody a t u : Keeps R (erc20TransferBody a t u).
Proof. unfold erc20TransferBody. keeps. Qed.

Lemma frame_onEvent now h tokenType e args : Keeps R (onEvent now h tokenType e args).
Proof.
  unfold onEvent, onTicketMinted, onTicketOpeningInitiated, onResolvedOrPaid.
  destruct e; keeps.
Qed.

Lemma frame_logBody now h a b log u : Keeps R (logBody parseLog now h a b log u).
Proof. unfold logBody, processLog. keeps; apply frame_onEvent. Qed.

Lemma frame_loops now h body : Keeps R (loops parseLog now h body).
Proof.
  pose proof frame_nftTransferBody. pose proof frame_erc20TransferBody.
  pose proof frame_logBody. unfold loops. simpl. keeps.
Qed.

(** A relation that the seven calls of the handler keep is kept by a
    whole request, however it ends. *)
Lemma frame_webhook now body w : R w (snd (webhook parseLog now body w)).
Proof.
  rewrite webhook_run.
  destruct (webhookBody_path parseLog now body w) as [C|C T|h d C E N F|h C E N F];
    try apply frame_refl.
  assert (Keeps R (loops parseLog now h body ;;
                   ProcessedTransaction_create now h ;;
                   ret (mkResponse 200 "Holdings updated successfully"))) as K.
  { apply keeps_bind; [exact _|apply frame_loops|intro].
    apply keeps_bind; [exact _|apply R_mark|intro]. now apply keeps_ret. }
  specialize (K w).
  destruct ((loops parseLog now h body ;; _) w) as [[r|e] w']; exact K.
Qed.

End HandlerFrame.

Lemma In_deleteOne {D} (key : D -> string) k docs d :
  In d (deleteOne key k docs) -> In d docs.
Proof.
  induction docs as [|x r IH]; simpl; [tauto|].
  destruct (hasKey key k x); simpl; tauto.
Qed.

(** The unique indexes. *)

Lemma indexed_delete m k : Keeps (Preserves AllIndexed) (Holding_findOneAndDelete m k).
Proof.
  intros w (F & N4 & N7 & P & D). unfold AllIndexed.
  destruct m; simpl; repeat split; auto using uniqueKeys_deleteOne.
Qed.

Lemma indexed_create m d : Keeps (Preserves AllIndexed) (Holding_create m d).
Proof.
  intros w (F & N4 & N7 & P & D). unfold Holding_create.
  destruct (negb _); [now repeat split|].
  rewrite bind_run. unfold get.
  destruct (insertUnique hd_tokenId d (holdings m w)) as [docs'|] eqn:E;
    [|now repeat split].
  unfold AllIndexed. destruct m; simpl in *; repeat split;
    eauto using uniqueKeys_insertUnique.
Qed.

Lemma indexed_fungible_save isNew d :
  Keeps (Preserves AllIndexed) (ERC404Fungible_save isNew d).
Proof.
  intros w (F & N4 & N7 & P & D). unfold ERC404Fungible_save.
  rewrite bind_run. destruct isNew.
  - destruct (negb _); [now repeat split|].
    rewrite bind_run. unfold get.
    destruct (insertUnique fb_address d (ERC404Fungible w)) as [docs'|] eqn:E;
      [|now repeat split].
    unfold AllIndexed. simpl. repeat split; eauto using uniqueKeys_insertUnique.
  - unfold AllIndexed. simpl. repeat split; auto using uniqueKeys_replaceOne.
Qed.

Lemma indexed_update a v b :
  Keeps (Preserves AllIndexed) (updateERC404FungibleBalance a v b).
Proof.
  pose proof indexed_fungible_save. unfold updateERC404FungibleBalance. keeps.
Qed.

Lemma indexed_minting_save isNew d :
  Keeps (Preserves AllIndexed) (MintingDetails_save isNew d).
Proof.
  intros w (F & N4 & N7 & P & D). unfold MintingDetails_save.
  rewrite bind_run. destruct isNew.
  - destruct (negb _); [now repeat split|].
    rewrite bind_run. unfold get.
    destruct (insertUnique md_tokenId d (MintingDetails w)) as [docs'|] eqn:E;
      [|now repeat split].
    unfold AllIndexed. simpl. repeat split; eauto using uniqueKeys_insertUnique.
  - unfold AllIndexed. simpl. repeat split; auto using uniqueKeys_replaceOne.
Qed.

Lemma indexed_opening d : Keeps (Preserves AllIndexed) (Opening_create d).
Proof.
  intros w I. unfold Opening_create. destruct (negb _); exact I.
Qed.

Lemma indexed_broadcast ty k : Keeps (Preserves AllIndexed) (broadcastUpdate ty k).
Proof. intros w I. exact I. Qed.

Lemma indexed_mark now h : Keeps (Preserves AllIndexed) (ProcessedTransaction_create now h).
Proof.
  intros w (F & N4 & N7 & P & D). unfold ProcessedTransaction_create.
  destruct (negb _); [now repeat split|].
  rewrite bind_run. unfold get.
  destruct (insertUnique tx_transactionHash _ (ProcessedTransaction w)) as [docs'|] eqn:E;
    [|now repeat split].
  unfold AllIndexed. simpl. repeat split; eauto using uniqueKeys_insertUnique.
Qed.

(** Numerals. *)

Lemma numerals_untouched {A} (m : M A) :
  (forall w, ERC404Fungible (snd (m w)) = ERC404Fungible w) ->
  Keeps (Preserves Numerals) m.
Proof. intros E w N d. rewrite E. apply N. Qed.

Lemma fungible_delete m k w :
  ERC404Fungible (snd (Holding_findOneAndDelete m k w)) = ERC404Fungible w.
Proof. now destruct m. Qed.

Lemma fungible_create m d w :
  ERC404Fungible (snd (Holding_create m d w)) = ERC404Fungible w.
Proof.
  unfold Holding_create. destruct (negb _); [reflexivity|].
  rewrite bind_run. unfold get. destruct (insertUnique _ _ _); [|reflexivity].
  now destruct m.
Qed.

Lemma fungible_minting_save isNew d w :
  ERC404Fungible (snd (MintingDetails_save isNew d w)) = ERC404Fungible w.
Proof.
  unfold MintingDetails_save. rewrite bind_run. destruct isNew; [|reflexivity].
  destruct (negb _); [reflexivity|].
  rewrite bind_run. unfold get. now destruct (insertUnique _ _ _).
Qed.

Lemma fungible_opening d w :
  ERC404Fungible (snd (Opening_create d w)) = ERC404Fungible w.
Proof. unfold Opening_create. now destruct (negb _). Qed.

Lemma fungible_mark now h w :
  ERC404Fungible (snd (ProcessedTransaction_create now h w)) = ERC404Fungible w.
Proof.
  unfold ProcessedTransaction_create. destruct (negb _); [reflexivity|].
  rewrite bind_run. unfold get. now destruct (insertUnique _ _ _).
Qed.

(** Owners in lower case. *)

Lemma holdings_update a v b w :
  ERC721Holding (snd (updateERC404FungibleBalance a v b w)) = ERC721Holding w /\
  ERC404NFT (snd (updateERC404FungibleBalance a v b w)) = ERC404NFT w /\
  Opening (snd (updateERC404FungibleBalance a v b w)) = Opening w.
Proof.
  unfold updateERC404FungibleBalance. rewrite bind_run. unfold get.
  destruct (findOne _ _ _); simpl.
  - destruct (Js.BigInt _); simpl; [|auto]. destruct (Js.BigInt v); simpl; auto.
  - change (Js.BigInt "0") with (Some 0). simpl.
    destruct (Js.BigInt v); simpl; [|auto].
    unfold ERC404Fungible_save. simpl.
    destruct (Js.nonEmpty a); simpl; [|auto].
    unfold bind, ret, get, insertUnique, modify, record. simpl.
    destruct (existsb _ _); simpl; auto.
Qed.

Lemma holdings_minting_save isNew d w :
  ERC721Holding (snd (MintingDetails_save isNew d w)) = ERC721Holding w /\
  ERC404NFT (snd (MintingDetails_save isNew d w)) = ERC404NFT w.
Proof.
  unfold MintingDetails_save. rewrite bind_run. destruct isNew; [|auto].
  destruct (negb _); [auto|].
  rewrite bind_run. unfold get. destruct (insertUnique _ _ _); auto.
Qed.

Lemma holdings_opening d w :
  ERC721Holding (snd (Opening_create d w)) = ERC721Holding w /\
  ERC404NFT (snd (Opening_create d w)) = ERC404NFT w.
Proof. unfold Opening_create. destruct (negb _); auto. Qed.

Lemma holdings_mark now h w :
  ERC721Holding (snd (ProcessedTransaction_create now h w)) = ERC721Holding w /\
  ERC404NFT (snd (ProcessedTransaction_create now h w)) = ERC404NFT w.
Proof.
  unfold ProcessedTransaction_create. destruct (negb _); [auto|].
  rewrite bind_run. unfold get. destruct (insertUnique _ _ _); auto.
Qed.

Lemma lower_untouched {A} (m : M A) :
  (forall w, ERC721Holding (snd (m w)) = ERC721Holding w /\
             ERC404NFT (snd (m w)) = ERC404NFT w) ->
  Keeps (Preserves LowerOwners) m.
Proof.
  intros E w [L7 L4]. destruct (E w) as [E7 E4]. split; intro d.
  - rewrite E7. apply L7.
  - rewrite E4. apply L4.
Qed.

Lemma lower_delete m k : Keeps (Preserves LowerOwners) (Holding_findOneAndDelete m k).
Proof.
  intros w [L7 L4]. destruct m; split; simpl; intros d Hd; auto;
    apply In_deleteOne in Hd; auto.
Qed.

Lemma lower_create m k to :
  Keeps (Preserves LowerOwners) (Holding_create m (mkHolding k (Js.toLowerCase to))).
Proof.
  intros w [L7 L4]. unfold Holding_create. destruct (negb _); [now split|].
  rewrite bind_run. unfold get, insertUnique.
  destruct (existsb _ _); [now split|].
  destruct m; split; simpl; intros d Hd; auto;
    apply in_app_or in Hd; destruct Hd as [Hd|[<-|[]]]; auto;
    apply toLowerCase_idem.
Qed.

(** Openings. *)

Lemma grow_untouched {A} (m : M A) :
  (forall w, Opening (snd (m w)) = Opening w) -> Keeps OpeningsGrow m.
Proof. intros E w. exists []. now rewrite E, app_nil_r. Qed.

Lemma opening_delete m k w :
  Opening (snd (Holding_findOneAndDelete m k w)) = Opening w.
Proof. now destruct m. Qed.

Lemma opening_create m d w : Opening (snd (Holding_create m d w)) = Opening w.
Proof.
  unfold Holding_create. destruct (negb _); [reflexivity|].
  rewrite bind_run. unfold get. destruct (insertUnique _ _ _); [|reflexivity].
  now destruct m.
Qed.

Lemma opening_minting_save isNew d w :
  Opening (snd (MintingDetails_save isNew d w)) = Opening w.
Proof.
  unfold MintingDetails_save. rewrite bind_run. destruct isNew; [|reflexivity].
  destruct (negb _); [reflexivity|].
  rewrite bind_run. unfold get. now destruct (insertUnique _ _ _).
Qed.

Lemma opening_mark now h w :
  Opening (snd (ProcessedTransaction_create now h w)) = Opening w.
Proof.
  unfold ProcessedTransaction_create. destruct (negb _); [reflexivity|].
  rewrite bind_run. unfold get. now destruct (insertUnique _ _ _).
Qed.

Lemma grow_opening_create d : Keeps OpeningsGrow (Opening_create d).
Proof.
  intro w. unfold Opening_create. destruct (negb _).
  - exists []. simpl. now rewrite app_nil_r.
  - now exists [d].
Qed.

Section HandlerInvariants.
Variable parseLog : EventName -> LogInput -> ParseResult.

(** X11: Whatever the payload, and whether the request ends well or in the
    [catch], the five collections with a unique path respect their
    index after the request when they did before. *)
Theorem webhook_keeps_unique_indexes now body w :
  AllIndexed w -> AllIndexed (snd (webhook parseLog now body w)).
Proof.
  apply (frame_webhook parseLog (Preserves AllIndexed));
    auto using indexed_delete, indexed_create, indexed_update,
      indexed_minting_save, indexed_opening, indexed_broadcast, indexed_mark.
Qed.

(** X12: Whatever the payload, the stored balances are numerals of integers
    after the request when they were before. *)
Theorem webhook_keeps_balances_numerals now body w :
  Numerals w -> Numerals (snd (webhook parseLog now body w)).
Proof.
  apply (frame_webhook parseLog (Preserves Numerals)); intros;
    try solve [apply numerals_untouched; intro;
               auto using fungible_delete, fungible_create, fungible_minting_save,
                 fungible_opening, fungible_mark].
  intros w0 N d. now apply update_keeps_numerals.
Qed.

(** X13: Whatever the payload, the owners on record are in lower case after
    the request when they were before: every record the handler
    creates has the [to] address in lower case. *)
Theorem webhook_keeps_owners_lower_case now body w :
  LowerOwners w -> LowerOwners (snd (webhook parseLog now body w)).
Proof.
  apply (frame_webhook parseLog (Preserves LowerOwners)); intros;
    auto using lower_delete, lower_create;
    apply lower_untouched; intro w0;
    auto using holdings_minting_save, holdings_opening, holdings_mark.
  destruct (holdings_update a v b w0) as (E1 & E2 & _). auto.
Qed.

(** X14: The handler never deletes or rewrites an opening: after a request
    the openings are those of before, in the same order, followed by
    the ones the request recorded. *)
Theorem webhook_only_appends_openings now body w :
  exists added, Opening (snd (webhook parseLog now body w)) = Opening w ++ added.
Proof.
  apply (frame_webhook parseLog OpeningsGrow); intros;
    auto using grow_opening_create;
    apply grow_untouched; intro;
    auto using opening_delete, opening_create, opening_minting_save, opening_mark.
  apply holdings_update.
Qed.

End HandlerInvariants.

(** ** Listings by address *)

Lemma filter_none {D} (f : D -> bool) l :
  (forall d, In d l -> f d = false) -> filter f l = [].
Proof.
  induction l as [|x r IH]; simpl; [reflexivity|]. intro H.
  rewrite (H x) by now left. apply IH. intros d Hd. apply H. now right.
Qed.

Lemma findByOwner_not_lower address docs :
  (forall d, In d docs -> Js.toLowerCase (hd_owner d) = hd_owner d) ->
  Js.toLowerCase address <> address ->
  findByOwner address docs = [].
Proof.
  intros L N. apply filter_none. intros d Hd. apply String.eqb_neq.
  intro E. apply N. rewrite <- E. now apply L.
Qed.

(** X15: The two listings by address compare the address of the request
    with the owners as it is written.  The owners on record being in
    lower case, an address with a capital letter, such as a
    checksummed address, gets empty listings, while [GET
    /holdings/:address] puts the address in lower case first. *)
Theorem listings_by_address_need_lower_case toISOString address w :
  LowerOwners w ->
  Js.toLowerCase address <> address ->
  getAddressOpenings address w = [] /\
  getAddressMintingDetails toISOString address w = [] /\
  getHoldings address w = getHoldings (Js.toLowerCase address) w.
Proof.
  intros [L7 L4] N.
  unfold getAddressOpenings, getAddressMintingDetails, getHoldings.
  rewrite (findByOwner_not_lower _ _ L7 N), (findByOwner_not_lower _ _ L4 N).
  rewrite toLowerCase_idem. simpl.
  rewrite !filter_none by reflexivity. now repeat split.
Qed.

(** ** Fungible transfers *)

Lemma update_returns address amount isAddition w z a :
  fungibleBalance address w = Js.toString z ->
  Js.BigInt amount = Some a -> Js.nonEmpty address = true ->
  exists w',
    updateERC404FungibleBalance address amount isAddition w = (Returned tt, w') /\
    fungibleBalance address w' = Js.toString (if isAddition then z + a else z - a).
Proof.
  intros Hz Ha N. pose proof (update_spec address amount isAddition w z Hz) as S.
  rewrite Ha, N in S.
  destruct (findOne fb_address address (ERC404Fungible w));
    destruct S as (w' & R & _ & B); eauto.
Qed.

(** A call on one address leaves the balance of every other address
    as it was. *)
Lemma update_other address amount isAddition w other :
  other <> address ->
  fungibleBalance other (snd (updateERC404FungibleBalance address amount isAddition w)) =
  fungibleBalance other w.
Proof.
  intro N. unfold fungibleBalance, updateERC404FungibleBalance.
  rewrite bind_run. unfold get.
  destruct (findOne fb_address address (ERC404Fungible w)) as [x|] eqn:F; simpl.
  - destruct (Js.BigInt (fb_balance x)); simpl; [|reflexivity].
    destruct (Js.BigInt amount); simpl; [|reflexivity].
    rewrite findOne_replaceOne_other; [reflexivity|].
    simpl. rewrite (findOne_key _ _ _ _ F). congruence.
  - change (Js.BigInt "0") with (Some 0). simpl.
    destruct (Js.BigInt amount); simpl; [|reflexivity].
    unfold ERC404Fungible_save. simpl.
    destruct (Js.nonEmpty address); simpl; [|reflexivity].
    unfold bind, ret, get, insertUnique, modify, record. simpl.
    rewrite (findOne_None_existsb _ _ _ F). simpl.
    rewrite findOne_app_other; [reflexivity|]. simpl. congruence.
Qed.

(** X16: A transfer of the fungible token between two different addresses
    takes the amount from the balance of [from] and adds it to the
    balance of [to], as integers of any size; the handler does not
    look whether [from] has the amount, so the balance of [from] goes
    below zero when it has not. *)
Theorem fungible_transfer_moves_amount a404 t w contract from to value x y a :
  wellFormed20 t contract from to value ->
  Js.toLowerCase contract = Js.toLowerCase a404 ->
  from <> zeroAddress ->
  Js.toLowerCase from <> Js.toLowerCase to ->
  fungibleBalance (Js.toLowerCase from) w = Js.toString x ->
  fungibleBalance (Js.toLowerCase to) w = Js.toString y ->
  Js.BigInt value = Some a ->
  exists w',
    erc20TransferBody a404 t tt w = (Returned tt, w') /\
    fungibleBalance (Js.toLowerCase from) w' = Js.toString (x - a) /\
    fungibleBalance (Js.toLowerCase to) w' = Js.toString (y + a).
Proof.
  intros (F1 & F2 & F3 & F4 & N1 & N2 & N3 & N4) C Z D Bx By Ha.
  unfold erc20TransferBody. rewrite F1, F2, F3, F4, N1, N2, N3, N4. simpl.
  apply String.eqb_eq in C. rewrite C.
  apply String.eqb_neq in Z. rewrite Z. simpl.
  assert (Js.nonEmpty (Js.toLowerCase from) = true) as Lf
    by now rewrite JsFacts.toLowerCase_nonEmpty.
  assert (Js.nonEmpty (Js.toLowerCase to) = true) as Lt
    by now rewrite JsFacts.toLowerCase_nonEmpty.
  destruct (update_returns _ value false w x a Bx Ha Lf) as (w1 & R1 & B1).
  pose proof (update_other (Js.toLowerCase from) value false w (Js.toLowerCase to))
    as O1. rewrite R1 in O1. simpl in O1.
  assert (fungibleBalance (Js.toLowerCase to) w1 = Js.toString y) as By1
    by (rewrite O1; [assumption|congruence]).
  destruct (update_returns _ value true w1 y a By1 Ha Lt) as (w2 & R2 & B2).
  pose proof (update_other (Js.toLowerCase to) value true w1 (Js.toLowerCase from) D)
    as O2. rewrite R2 in O2. simpl in O2.
  exists w2. rewrite bind_run, R1, R2. repeat split; [|assumption].
  now rewrite O2.
Qed.

(** ** Mints of a token on record *)

Lemma findOne_Some_existsb {D} (key : D -> string) k docs d :
  findOne key k docs = Some d -> existsb (hasKey key k) docs = true.
Proof.
  intro H. apply existsb_exists. exists d. apply find_some in H. exact H.
Qed.

(** X17: A mint (a transfer from the zero address) of a token that has a
    record in the collection of its class deletes nothing: the
    insertion meets the unique index, the entry throws and the world
    is as it was. *)
Theorem mint_of_recorded_token_throws a721 a404 t processed w m contract tokenId to d :
  wellFormed t contract tokenId zeroAddress to ->
  transferClass a721 a404 contract = Some m ->
  member tokenId processed = false ->
  findOne hd_tokenId tokenId (holdings m w) = Some d ->
  nftTransferBody a721 a404 t processed w = (Thrown DuplicateKeyError, w).
Proof.
  intros WF C P F.
  rewrite (nftTransferBody_applied _ _ _ _ _ _ _ _ _ w WF C P), bind_run.
  destruct WF as (_ & _ & _ & _ & _ & Nt & _ & Nto).
  unfold applyTokenTransfer. rewrite String.eqb_refl. simpl.
  unfold Holding_create. simpl.
  rewrite Nt, JsFacts.toLowerCase_nonEmpty, Nto. simpl.
  unfold bind, ret, get, insertUnique. simpl.
  now rewrite (findOne_Some_existsb _ _ _ _ F).
Qed.

(** ** Events and the records they leave *)

(** The [TicketMinted] branch on levels that fit: the document of the
    token, found or new, gets the decoded levels after the ones it
    had, and keeps its other fields. *)
Lemma onTicketMinted_exact now h to tokenId eth levels w :
  Js.nonEmpty h = true -> Forall fits levels ->
  let key := Js.toString (Z.of_N tokenId) in
  let base := baseDetails now h key w in
  let saved :=
    mkMintingDetails (md_tokenId base) (md_levels base ++ map levelDoc levels)
      (md_rollResult base) (md_payout base) (md_timestamp base)
      (md_transactionHash base) in
  exists docs,
    onTicketMinted now h (TicketMintedArgs to tokenId eth levels) w =
    (Returned tt,
     setJournal
       ((journal w ++ [Saved MintingDetailsM (md_tokenId saved)])
        ++ sendToOpen 0 (wssClients w) (mkFrame "MINTING_DETAILS_UPDATED" key))
       (setMintingDetails docs w)) /\
    findOne md_tokenId key docs = Some saved /\
    md_tokenId saved = key.
Proof.
  intros N F key base saved. unfold onTicketMinted. simpl orThrow.
  rewrite !bind_ret_l, bind_get. fold key.
  rewrite bind_run, (push_levels _ _ _ F).
  subst saved base. unfold baseDetails.
  destruct (findOne md_tokenId key (MintingDetails w)) as [x|] eqn:E.
  - pose proof (findOne_key _ _ _ _ E) as K.
    set (d := mkMintingDetails (md_tokenId x) _ _ _ _ _).
    destruct (minting_save_run d w) as (docs & R & G & _).
    { simpl. rewrite K, E. discriminate. }
    simpl in R, G. rewrite K, E in R. rewrite K in G.
    exists docs. rewrite bind_run, R. simpl. rewrite K. now repeat split.
  - cbn [md_tokenId md_levels md_rollResult md_payout md_timestamp md_transactionHash].
    set (d := mkMintingDetails key ([] ++ map levelDoc levels) None None now h).
    destruct (minting_save_run d w) as (docs & R & G & _).
    { intros _. split; [apply JsFacts.toString_nonEmpty|exact N]. }
    simpl in R, G. rewrite E in R.
    exists docs. rewrite bind_run, R. simpl. now repeat split.
Qed.

(** The [RewardPaid] branch: the roll result of the document is 0 and
    its payout the amount, whatever they were. *)
Lemma onRewardPaid_exact now h winner tokenId amount w :
  Js.nonEmpty h = true ->
  let key := Js.toString (Z.of_N tokenId) in
  let base := baseDetails now h key w in
  let saved :=
    mkMintingDetails (md_tokenId base) (md_levels base) (Some 0)
      (Some (Js.toString (Z.of_N amount))) (md_timestamp base)
      (md_transactionHash base) in
  exists docs,
    onResolvedOrPaid now h RewardPaid (RewardPaidArgs winner tokenId amount) w =
    (Returned tt,
     setJournal
       ((journal w ++ [Saved MintingDetailsM (md_tokenId saved)])
        ++ sendToOpen 0 (wssClients w) (mkFrame "MINTING_DETAILS_UPDATED" key))
       (setMintingDetails docs w)) /\
    findOne md_tokenId key docs = Some saved /\
    In saved docs.
Proof.
  intros N key base saved. unfold onResolvedOrPaid. simpl orThrow.
  simpl eventName_eqb. cbv iota.
  rewrite bind_ret_l, bind_assoc, !bind_ret_l, bind_get. fold key.
  simpl fst. simpl snd. subst saved base. unfold baseDetails.
  destruct (findOne md_tokenId key (MintingDetails w)) as [x|] eqn:E.
  - pose proof (findOne_key _ _ _ _ E) as K.
    set (d := mkMintingDetails (md_tokenId x) _ _ _ _ _).
    destruct (minting_save_run d w) as (docs & R & G & _).
    { simpl. rewrite K, E. discriminate. }
    simpl in R, G. rewrite K, E in R. rewrite K in G.
    exists docs. rewrite bind_run, R. simpl. rewrite K.
    repeat split; [assumption|eapply findOne_In; eauto].
  - cbn [md_tokenId md_levels md_rollResult md_payout md_timestamp md_transactionHash].
    set (d := mkMintingDetails key [] (Some 0) _ now h).
    destruct (minting_save_run d w) as (docs & R & G & _).
    { intros _. split; [apply JsFacts.toString_nonEmpty|exact N]. }
    simpl in R, G. rewrite E in R.
    exists docs. rewrite bind_run, R. simpl.
    repeat split; [assumption|eapply findOne_In; eauto].
Qed.

Section Events.
Variable parseLog : EventName -> LogInput -> ParseResult.
Variable toISOString : nat -> string.

(** X18: The first [TicketMinted] log of a token creates its record: the
    decoded levels in order, no roll result and no payout, the time
    of the request and the transaction hash of the request; [GET
    /minting-details/:tokenId] answers that record. *)
Theorem first_mint_creates_details
    now h a721 a404 log w to tokenId eth levels :
  Js.nonEmpty h = true ->
  tracked a721 a404 log ->
  decodeChain parseLog (mkLogInput (lg_data log) (topicsOf log)) =
    Some (Some (TicketMintedArgs to tokenId eth levels), Some TicketMinted) ->
  Forall fits levels ->
  let key := Js.toString (Z.of_N tokenId) in
  getMintingDetails key w = None ->
  getMintingDetails key (snd (logBody parseLog now h a721 a404 log tt w)) =
  Some (mkMintingDetails key (map levelDoc levels) None None now h).
Proof.
  intros N T D F key G.
  destruct (logBody_decoded parseLog now h _ _ _ _ _ w T D) as (tokenType & ->).
  destruct (onTicketMinted_exact now h to tokenId eth levels w N F)
    as (docs & R & S & _).
  unfold tryCatch. simpl onEvent. rewrite R. simpl.
  unfold getMintingDetails in *. simpl. fold key in S. rewrite S.
  unfold baseDetails. fold key. now rewrite G.
Qed.


(** X20: A [RewardPaid] log sets the payout of the token to the amount paid
    and its roll result to 0, also when a resolution had set another
    roll result; the levels stay.  [GET /minting-details/:tokenId]
    answers the roll result 0, and the listing [GET /minting-details]
    has the record without a roll result, because it replaces a falsy
    roll result by [undefined]. *)
Theorem reward_paid_resets_roll_result
    now h a721 a404 log w winner tokenId amount :
  Js.nonEmpty h = true ->
  tracked a721 a404 log ->
  decodeChain parseLog (mkLogInput (lg_data log) (topicsOf log)) =
    Some (Some (RewardPaidArgs winner tokenId amount), Some RewardPaid) ->
  let key := Js.toString (Z.of_N tokenId) in
  let w' := snd (logBody parseLog now h a721 a404 log tt w) in
  exists d,
    getMintingDetails key w' = Some d /\
    md_rollResult d = Some 0 /\
    md_payout d = Some (Js.toString (Z.of_N amount)) /\
    md_levels d = levelsOf key w /\
    In (formatDetail toISOString d) (getAllMintingDetails toISOString w') /\
    fd_rollResult (formatDetail toISOString d) = None /\
    fd_payout (formatDetail toISOString d) = Some (Js.toString (Z.of_N amount)).
Proof.
  intros N T D key w'.
  destruct (logBody_decoded parseLog now h _ _ _ _ _ w T D) as (tokenType & L).
  destruct (onRewardPaid_exact now h winner tokenId amount w N)
    as (docs & R & S & I).
  subst w'. rewrite L. unfold tryCatch. simpl onEvent. rewrite R. simpl.
  eexists. unfold getMintingDetails. simpl. split; [exact S|].
  split; [reflexivity|]. split; [reflexivity|]. split.
  { unfold levelsOf, baseDetails. fold key.
    now destruct (findOne md_tokenId key (MintingDetails w)). }
  split.
  { unfold getAllMintingDetails. apply in_map. apply In_sortDesc. exact I. }
  split; [reflexivity|].
  unfold formatDetail, stringOrUndefined. simpl.
  now rewrite JsFacts.toString_nonEmpty.
Qed.

(** X21: A [TicketOpeningInitiated] log adds one opening at the end of the
    collection, whatever openings the token has already: the tokenId
    as a numeral, the opener in lower case, the transaction hash and
    the time of the request.  It sends no frame, and [GET
    /openings/:tokenId] answers the new opening with the others. *)
Theorem opening_log_appends_opening
    now h a721 a404 log w tokenId opener :
  Js.nonEmpty h = true -> Js.nonEmpty opener = true ->
  tracked a721 a404 log ->
  decodeChain parseLog (mkLogInput (lg_data log) (topicsOf log)) =
    Some (Some (TicketOpeningInitiatedArgs tokenId opener), Some TicketOpeningInitiated) ->
  let key := Js.toString (Z.of_N tokenId) in
  let w' := snd (logBody parseLog now h a721 a404 log tt w) in
  exists tokenType,
    let opening := mkOpening key now h tokenType (Js.toLowerCase opener) in
    Opening w' = Opening w ++ [opening] /\
    journal w' = journal w ++ [Created OpeningM key] /\
    In opening (getOpenings key w') /\
    List.length (getOpenings key w') = S (List.length (getOpenings key w)).
Proof.
  intros N No T D key w'.
  destruct (logBody_decoded parseLog now h _ _ _ _ _ w T D) as (tokenType & L).
  exists tokenType. intro opening. subst w'. rewrite L.
  unfold tryCatch. simpl onEvent. unfold onTicketOpeningInitiated. simpl orThrow.
  rewrite !bind_ret_l. fold key. unfold Opening_create.
  cbn [op_tokenId op_transactionHash op_opener].
  pose proof (JsFacts.toString_nonEmpty (Z.of_N tokenId)) as Nk. fold key in Nk.
  rewrite Nk, N, JsFacts.toLowerCase_nonEmpty, No. simpl.
  split; [reflexivity|]. split; [reflexivity|].
  unfold getOpenings. simpl. split.
  - apply In_sortDesc, filter_In. split.
    + apply in_or_app. right. now left.
    + apply String.eqb_refl.
  - rewrite !(Permutation_length (sortDesc_perm _ _)), filter_app, length_app.
    simpl. rewrite String.eqb_refl. simpl. lia.
Qed.

End Events.

(** ** Mints of a new token, and the listings of minting details *)

Lemma findOne_None_existsb_holdings m tokenId w :
  findOne hd_tokenId tokenId (holdings m w) = None ->
  existsb (hasKey hd_tokenId tokenId) (holdings m w) = false.
Proof. apply findOne_None_existsb. Qed.

(** X22: A mint of a token without a record in the collection of its class
    adds the record at the end of the collection and calls no
    deletion. *)
Theorem mint_of_new_token_adds_record a721 a404 t processed w m contract tokenId to :
  wellFormed t contract tokenId zeroAddress to ->
  transferClass a721 a404 contract = Some m ->
  member tokenId processed = false ->
  findOne hd_tokenId tokenId (holdings m w) = None ->
  let w' := snd (nftTransferBody a721 a404 t processed w) in
  holdings m w' = holdings m w ++ [mkHolding tokenId (Js.toLowerCase to)] /\
  journal w' = journal w ++ [Created (modelOf m) tokenId].
Proof.
  intros WF C P F w'. subst w'.
  rewrite (nftTransferBody_applied _ _ _ _ _ _ _ _ _ w WF C P), bind_run.
  destruct WF as (_ & _ & _ & _ & _ & Nt & _ & Nto).
  unfold applyTokenTransfer. rewrite String.eqb_refl. simpl.
  unfold Holding_create. simpl.
  rewrite Nt, JsFacts.toLowerCase_nonEmpty, Nto. simpl.
  unfold bind, ret, get, insertUnique. simpl.
  rewrite (findOne_None_existsb_holdings _ _ _ F). simpl.
  now destruct m.
Qed.

Section DetailListings.
Variable toISOString : nat -> string.

(** X23: [GET /minting-details] answers one element per record, the latest
    record first; no element has the roll result 0 or an empty payout:
    the listing leaves a falsy value out. *)
Theorem all_minting_details_listing w :
  exists docs,
    getAllMintingDetails toISOString w = map (formatDetail toISOString) docs /\
    Permutation docs (MintingDetails w) /\
    sortedDesc md_timestamp docs /\
    forall f, In f (getAllMintingDetails toISOString w) ->
              fd_rollResult f <> Some 0 /\ fd_payout f <> Some "".
Proof.
  exists (sortDesc md_timestamp (MintingDetails w)).
  split; [reflexivity|]. split; [apply sortDesc_perm|].
  split; [apply sortDesc_sorted|].
  intros f H. unfold getAllMintingDetails in H. apply in_map_iff in H.
  destruct H as (d & <- & _). unfold formatDetail, numberOrUndefined, stringOrUndefined.
  simpl. split.
  - destruct (md_rollResult d) as [[| |]|]; discriminate.
  - destruct (md_payout d) as [[|c r]|]; discriminate.
Qed.

(** X24: [GET /address/:address/minting-details] answers the records of
    the tokens that the ERC721 collection gives to the address as it
    is written: a token held through the ERC404 collection alone is
    never in the answer. *)
Theorem address_minting_details_are_erc721_only address w f :
  In f (getAddressMintingDetails toISOString address w) <->
  exists d,
    f = formatDetail toISOString d /\ In d (MintingDetails w) /\
    exists h, In h (ERC721Holding w) /\ hd_owner h = address /\
              hd_tokenId h = md_tokenId d.
Proof.
  unfold getAddressMintingDetails. rewrite in_map_iff. split.
  - intros (d & <- & H). apply In_sortDesc, filter_In in H. destruct H as [H I].
    apply inValues_In, In_distinct, in_map_iff in I. destruct I as (h & E & O).
    apply filter_In in O. destruct O as [O A]. apply String.eqb_eq in A.
    exists d. repeat split; [assumption|]. exists h. auto.
  - intros (d & -> & H & h & O & A & E). exists d. split; [reflexivity|].
    apply In_sortDesc, filter_In. split; [assumption|].
    apply inValues_In, In_distinct, in_map_iff. exists h. split; [assumption|].
    apply filter_In. split; [assumption|now apply String.eqb_eq].
Qed.

End DetailListings.

(** ** The further properties on sample data *)

Lemma sample_tracked log address :
  Js.truthy (lg_topic0 log) = true ->
  lg_address log = Some address ->
  (address = erc721Sample \/ address = erc404Sample) ->
  tracked erc721Sample erc404Sample log.
Proof.
  intros T A [-> | ->]; (split; [exact T|]); eexists; (split; [exact A|]);
    [now left|now right].
Qed.

Lemma bank_indexed : AllIndexed bank.
Proof.
  unfold AllIndexed, uniqueKeys. simpl.
  repeat split; repeat constructor; simpl; try tauto.
  intros [H|[]]. discriminate H.
Qed.

Lemma bank_numerals : Numerals bank.
Proof.
  intros d [<-|[<-|[]]]; [exists (-3)|exists 40]; reflexivity.
Qed.

Lemma bank_lower : LowerOwners bank.
Proof.
  split; intros d [<-|[]]; reflexivity.
Qed.

Lemma holdings_after_transfer_witness :
  let t := nftEntry erc721Sample "7" alice bob in
  let w' := snd (nftTransferBody erc721Sample erc404Sample t [] gallery) in
  In "7" (hb_erc721 (getHoldings bob w')) /\
  ~ In "7" (hb_erc721 (getHoldings alice w')).
Proof.
  intros t w'.
  assert (uniqueKeys hd_tokenId (holdings ERC721HoldingModel gallery)) as U.
  { unfold uniqueKeys. simpl. repeat constructor. intros []. }
  assert (wellFormed t erc721Sample "7" alice bob) as WF
    by (repeat split; reflexivity).
  assert (alice <> zeroAddress) as NZ by (apply String.eqb_neq; reflexivity).
  pose proof (fun address =>
    holdings_after_transfer erc721Sample erc404Sample t [] gallery
      ERC721HoldingModel erc721Sample "7" alice bob address
      U WF eq_refl eq_refl NZ) as H.
  split.
  - apply (H bob). reflexivity.
  - intro I. apply (H alice) in I. vm_compute in I. discriminate I.
Defined.

Lemma fungible_holders_are_positive_witness :
  exists docs,
    getHolders "erc404-fungible" bank = (200%nat, HoldersDocs docs) /\
    forall d,
      In d docs <->
      In d (ERC404Fungible bank) /\ exists z, fb_balance d = Js.toString z /\ 0 < z.
Proof.
  apply (fungible_holders_are_positive bank). exact bank_numerals.
Defined.

Lemma nft_holders_are_distinct_owners_witness :
  exists owners,
    getHolders "erc721" bank = (200%nat, HoldersOwners owners) /\
    NoDup owners /\
    forall o, In o owners <-> exists d, In d (ERC721Holding bank) /\ hd_owner d = o.
Proof.
  apply (nft_holders_are_distinct_owners "erc721" bank). now right.
Defined.

Lemma holdings_are_exclusive_witness :
  (forall address, NoDup (hb_erc721 (getHoldings address bank))) /\
  (forall a b tokenId,
     In tokenId (hb_erc721 (getHoldings a bank)) ->
     In tokenId (hb_erc721 (getHoldings b bank)) ->
     Js.toLowerCase a = Js.toLowerCase b).
Proof.
  apply (holdings_are_exclusive ERC721HoldingModel bank).
  unfold uniqueKeys. simpl. repeat constructor. intros [].
Defined.

Lemma holdings_of_unknown_address_witness :
  getHoldings carol bank = mkHoldingsBody "0" [] [].
Proof.
  apply (holdings_of_unknown_address carol bank).
  - intros d [<-|[<-|[]]] E; vm_compute in E; discriminate E.
  - intros d [<-|[]] E; vm_compute in E; discriminate E.
  - intros d [<-|[]] E; vm_compute in E; discriminate E.
Defined.

Lemma failed_log_leaves_no_trace_witness :
  processLog sampleParseLog 1 "0xabc" erc721Sample erc404Sample overflowLog bank =
    (Thrown NumericFault, bank) /\
  logBody sampleParseLog 1 "0xabc" erc721Sample erc404Sample overflowLog tt bank =
    (Returned tt, bank).
Proof.
  assert (processLog sampleParseLog 1 "0xabc" erc721Sample erc404Sample overflowLog bank =
          (Thrown NumericFault, bank)) as T by (vm_compute; reflexivity).
  split; [exact T|].
  exact (proj2 (failed_log_leaves_no_trace sampleParseLog 1 "0xabc" erc721Sample
                  erc404Sample overflowLog bank NumericFault bank T)).
Defined.

Lemma untracked_log_is_skipped_witness :
  logBody sampleParseLog 1 "0xabc" erc721Sample erc404Sample foreignLog tt bank =
  (Returned tt, bank).
Proof.
  apply (untracked_log_is_skipped sampleParseLog 1 "0xabc" erc721Sample erc404Sample
           foreignLog bank).
  right. right. exists alice. split; [reflexivity|].
  split; intro E; vm_compute in E; discriminate E.
Defined.

Lemma webhook_keeps_unique_indexes_witness :
  AllIndexed bank /\ AllIndexed (snd (webhook sampleParseLog 5 mintBody bank)).
Proof.
  split; [exact bank_indexed|].
  apply (webhook_keeps_unique_indexes sampleParseLog 5 mintBody bank).
  exact bank_indexed.
Defined.

Lemma webhook_keeps_balances_numerals_witness :
  Numerals bank /\ Numerals (snd (webhook sampleParseLog 5 mintBody bank)).
Proof.
  split; [exact bank_numerals|].
  apply (webhook_keeps_balances_numerals sampleParseLog 5 mintBody bank).
  exact bank_numerals.
Defined.

Lemma webhook_keeps_owners_lower_case_witness :
  LowerOwners bank /\ LowerOwners (snd (webhook sampleParseLog 5 mixedBody bank)).
Proof.
  split; [exact bank_lower|].
  apply (webhook_keeps_owners_lower_case sampleParseLog 5 mixedBody bank).
  exact bank_lower.
Defined.

Lemma listings_by_address_need_lower_case_witness :
  Js.toLowerCase alice <> alice /\
  getAddressOpenings alice bank = [] /\
  getAddressMintingDetails sampleISO alice bank = [] /\
  getHoldings alice bank = getHoldings (Js.toLowerCase alice) bank /\
  hb_erc721 (getHoldings alice bank) = ["7"].
Proof.
  assert (Js.toLowerCase alice <> alice) as N
    by (intro E; vm_compute in E; discriminate E).
  destruct (listings_by_address_need_lower_case sampleISO alice bank bank_lower N)
    as (O & D & H).
  split; [exact N|]. split; [exact O|]. split; [exact D|]. split; [exact H|].
  reflexivity.
Defined.

Lemma fungible_transfer_moves_amount_witness :
  exists w',
    erc20TransferBody erc404Sample (erc20Entry alice bob "10") tt bank =
      (Returned tt, w') /\
    fungibleBalance aliceAddress w' = Js.toString (-3 - 10) /\
    fungibleBalance bobAddress w' = Js.toString (40 + 10).
Proof.
  apply (fungible_transfer_moves_amount erc404Sample (erc20Entry alice bob "10") bank
           erc404Sample alice bob "10" (-3) 40 10).
  - repeat split; reflexivity.
  - reflexivity.
  - apply String.eqb_neq. reflexivity.
  - intro E. vm_compute in E. discriminate E.
  - reflexivity.
  - reflexivity.
  - reflexivity.
Defined.

Lemma mint_of_recorded_token_throws_witness :
  nftTransferBody erc721Sample erc404Sample
    (nftEntry erc721Sample "7" zeroAddress bob) [] gallery =
  (Thrown DuplicateKeyError, gallery).
Proof.
  apply (mint_of_recorded_token_throws erc721Sample erc404Sample
           (nftEntry erc721Sample "7" zeroAddress bob) [] gallery
           ERC721HoldingModel erc721Sample "7" bob
           (mkHolding "7" (Js.toLowerCase alice))).
  - repeat split; reflexivity.
  - reflexivity.
  - reflexivity.
  - reflexivity.
Defined.

Lemma mint_of_new_token_adds_record_witness :
  let w' := snd (nftTransferBody erc721Sample erc404Sample
                   (nftEntry erc404Sample "8" zeroAddress bob) [] bank) in
  ERC404NFT w' = [mkHolding "5" bobAddress; mkHolding "8" bobAddress] /\
  journal w' = [Created ERC404NFTM "8"].
Proof.
  apply (mint_of_new_token_adds_record erc721Sample erc404Sample
           (nftEntry erc404Sample "8" zeroAddress bob) [] bank
           ERC404NFTModel erc404Sample "8" bob).
  - repeat split; reflexivity.
  - reflexivity.
  - reflexivity.
  - reflexivity.
Defined.

Lemma first_mint_creates_details_witness :
  getMintingDetails "7" emptyWorld = None /\
  getMintingDetails "7" mintedWorld =
  Some (mkMintingDetails "7" [mkLevelDoc "3000" 3] None None 1 "0xabc").
Proof.
  split; [reflexivity|].
  apply (first_mint_creates_details sampleParseLog 1 "0xabc" erc721Sample erc404Sample
           mintedLog emptyWorld alice 7 true [mkLevel 3 50 3000]).
  - reflexivity.
  - apply (sample_tracked mintedLog erc721Sample); [reflexivity|reflexivity|now left].
  - reflexivity.
  - repeat constructor.
  - reflexivity.
Defined.


Lemma reward_paid_resets_roll_result_witness :
  let w' := snd (logBody sampleParseLog 2 "0xdef" erc721Sample erc404Sample
                   rewardLog tt mintedWorld) in
  exists d,
    getMintingDetails "7" w' = Some d /\
    md_rollResult d = Some 0 /\
    md_payout d = Some "9" /\
    md_levels d = levelsOf "7" mintedWorld /\
    In (formatDetail sampleISO d) (getAllMintingDetails sampleISO w') /\
    fd_rollResult (formatDetail sampleISO d) = None /\
    fd_payout (formatDetail sampleISO d) = Some "9".
Proof.
  apply (reward_paid_resets_roll_result sampleParseLog sampleISO 2 "0xdef"
           erc721Sample erc404Sample rewardLog mintedWorld alice 7 9).
  - reflexivity.
  - apply (sample_tracked rewardLog erc721Sample); [reflexivity|reflexivity|now left].
  - reflexivity.
Defined.

Lemma opening_log_appends_opening_witness :
  let w' := snd (logBody sampleParseLog 12 "0xdef" erc721Sample erc404Sample
                   openingLog tt bank) in
  exists tokenType,
    let opening := mkOpening "7" 12 "0xdef" tokenType (Js.toLowerCase alice) in
    Opening w' = Opening bank ++ [opening] /\
    journal w' = journal bank ++ [Created OpeningM "7"] /\
    In opening (getOpenings "7" w') /\
    List.length (getOpenings "7" w') = S (List.length (getOpenings "7" bank)).
Proof.
  apply (opening_log_appends_opening sampleParseLog 12 "0xdef" erc721Sample
           erc404Sample openingLog bank 7 alice).
  - reflexivity.
  - reflexivity.
  - apply (sample_tracked openingLog erc404Sample); [reflexivity|reflexivity|now right].
  - reflexivity.
Defined.

Lemma address_minting_details_are_erc721_only_witness :
  let held404 := setERC404NFT [mkHolding "7" bobAddress] mintedWorld in
  let held721 := setERC721Holding [mkHolding "7" bobAddress] mintedWorld in
  getAddressMintingDetails sampleISO bobAddress held404 = [] /\
  In (formatDetail sampleISO
        (mkMintingDetails "7" [mkLevelDoc "3000" 3] None None 1 "0xabc"))
     (getAddressMintingDetails sampleISO bobAddress held721).
Proof.
  intros held404 held721. split; [reflexivity|].
  apply (address_minting_details_are_erc721_only sampleISO bobAddress held721).
  eexists. split; [reflexivity|]. split; [now left|].
  exists (mkHolding "7" bobAddress). repeat split. now left.
Defined.

(** The sample openings of token 7 and the open sockets of [bank]. *)
Example openings_latest_first :
  map op_timestamp (getOpenings "7" bank) = [9; 3]%nat /\
  map op_transactionHash (getAddressOpenings bobAddress bank) = ["0xccc"] /\
  snd (broadcastUpdate "MINTING_DETAILS_UPDATED" "7" bank) =
  setJournal [Sent 1 mintedFrame; Sent 3 mintedFrame] bank.
Proof. repeat split; reflexivity. Qed.
